(** * Interactive-Map-TDAO: the persona / locations application

    A shallow embedding of the TypeScript sources (the Exa search client,
    the OpenAI persona generator, the prompt templates, the two route
    handlers and the list and map components) together with the
    properties that the specification states about them.

    JavaScript strings are sequences of UTF-16 code units; they are
    modelled as lists of [N].  Numbers are IEEE doubles and are modelled
    by Rocq's primitive floats. *)

From Stdlib Require Import List NArith Bool String Ascii Lia PeanoNat.
From Stdlib Require Import Floats.
Import ListNotations.

Set Warnings "-inexact-float".

(** ** The JavaScript layer: strings, values, property lookup *)

Module JS.

(** A string is the list of its UTF-16 code units. *)
Definition jsstring := list N.

(** An ASCII literal of the source, as code units. *)
Definition js (s : string) : jsstring :=
  map N_of_ascii (list_ascii_of_string s).

Fixpoint streq (a b : jsstring) : bool :=
  match a, b with
  | [], [] => true
  | x :: a', y :: b' => N.eqb x y && streq a' b'
  | _, _ => false
  end.

(** [s.length] *)
Definition lengthOf (s : jsstring) : nat := List.length s.

(** Truthiness of a string: the empty string is the only falsy one. *)
Definition nonEmpty (s : jsstring) : bool :=
  match s with [] => false | _ :: _ => true end.

(** ECMAScript WhiteSpace and LineTerminator code points, the set
    removed by [String.prototype.trim]. *)
Definition isWhiteSpace (c : N) : bool :=
  (N.eqb c 9 || N.eqb c 10 || N.eqb c 11 || N.eqb c 12 || N.eqb c 13
   || N.eqb c 32 || N.eqb c 160 || N.eqb c 5760
   || (N.leb 8192 c && N.leb c 8202)
   || N.eqb c 8232 || N.eqb c 8233 || N.eqb c 8239 || N.eqb c 8287
   || N.eqb c 12288 || N.eqb c 65279)%bool.

Fixpoint dropWhile (p : N -> bool) (s : jsstring) : jsstring :=
  match s with
  | [] => []
  | c :: r => if p c then dropWhile p r else s
  end.

Fixpoint takeWhile (p : N -> bool) (s : jsstring) : jsstring :=
  match s with
  | [] => []
  | c :: r => if p c then c :: takeWhile p r else []
  end.

Definition trimStart (s : jsstring) : jsstring := dropWhile isWhiteSpace s.
Definition trimEnd (s : jsstring) : jsstring :=
  rev (dropWhile isWhiteSpace (rev s)).

(** [s.trim()] *)
Definition trim (s : jsstring) : jsstring := trimEnd (trimStart s).

(** [s.split(sep)] for a separator of one code unit. *)
Fixpoint split (sep : N) (s : jsstring) : list jsstring :=
  match s with
  | [] => [[]]
  | c :: r =>
      if N.eqb c sep then [] :: split sep r
      else match split sep r with
           | h :: t => (c :: h) :: t
           | [] => [[c]]
           end
  end.

(** [s.startsWith(p)] *)
Fixpoint startsWith (s p : jsstring) : bool :=
  match p, s with
  | [], _ => true
  | x :: p', y :: s' => N.eqb x y && startsWith s' p'
  | _ :: _, [] => false
  end.

(** [s.includes(sub)] *)
Fixpoint includes (s sub : jsstring) : bool :=
  startsWith s sub ||
  match s with
  | [] => false
  | _ :: r => includes r sub
  end.

(** [l.join(sep)] *)
Fixpoint join (sep : jsstring) (l : list jsstring) : jsstring :=
  match l with
  | [] => []
  | [x] => x
  | x :: r => x ++ sep ++ join sep r
  end.

(** [l.slice(0, n)] *)
Definition slice0 {A} (n : nat) (l : list A) : list A := firstn n l.

(** [s.replace(/^@/, '')]: one leading "@" (code unit 64) is removed. *)
Definition replaceLeadingAt (s : jsstring) : jsstring :=
  match s with
  | 64%N :: r => r
  | _ => s
  end.

(** [s.match(/^([^(]+)/)]: the first capture group, the longest
    prefix free of "(" (code unit 40); no match when it is empty. *)
Definition matchBeforeParen (s : jsstring) : option jsstring :=
  match takeWhile (fun c => negb (N.eqb c 40)) s with
  | [] => None
  | g => Some g
  end.

(** Truthiness of an optional string ([undefined] is falsy). *)
Definition truthyStr (o : option jsstring) : bool :=
  match o with
  | Some s => nonEmpty s
  | None => false
  end.

(** *** Values

    Objects are association lists of own properties in lookup order;
    [VNative] stands for the built-in objects that a property read can
    reach through the prototype chain. *)

Inductive Native :=
| ObjectConstructor
| ObjectPrototype
| ObjectPrototypeMethod (method : string).

#[warnings="-register-all"]
Inductive Value :=
| VUndefined
| VNull
| VBool (b : bool)
| VNumber (f : float)
| VString (s : jsstring)
| VArray (items : list Value)
| VObject (props : list (jsstring * Value))
| VNative (n : Native).

Inductive Exn :=
| TypeError (msg : string)
| SyntaxError (msg : string)
| Error (msg : string)
| HostError (msg : string).

Inductive Outcome (A : Type) :=
| Ok (a : A)
| Throw (e : Exn).
Arguments Ok {A} a.
Arguments Throw {A} e.

(** ToBoolean *)
Definition truthy (v : Value) : bool :=
  match v with
  | VUndefined | VNull => false
  | VBool b => b
  | VNumber f => negb (PrimFloat.eqb f 0%float || negb (PrimFloat.eqb f f))
  | VString s => nonEmpty s
  | VArray _ | VObject _ | VNative _ => true
  end.

(** [a || b] *)
Definition orElse (a b : Value) : Value := if truthy a then a else b.

Fixpoint ownProperty (props : list (jsstring * Value)) (k : jsstring)
  : option Value :=
  match props with
  | [] => None
  | (k', v) :: r => if streq k' k then Some v else ownProperty r k
  end.

(** The properties of [Object.prototype] (ECMAScript, with the Annex B
    accessors every browser and Node ship).  Reading [__proto__]
    through the accessor yields the prototype itself. *)
Definition objectPrototypeMethods : list string :=
  [ "__defineGetter__"; "__defineSetter__"; "hasOwnProperty";
    "__lookupGetter__"; "__lookupSetter__"; "isPrototypeOf";
    "propertyIsEnumerable"; "toString"; "valueOf"; "toLocaleString" ]%string.

Definition objectPrototypeProperty (k : jsstring) : option Value :=
  if streq k (js "constructor") then Some (VNative ObjectConstructor)
  else if streq k (js "__proto__") then Some (VNative ObjectPrototype)
  else match find (fun m => streq k (js m)) objectPrototypeMethods with
       | Some m => Some (VNative (ObjectPrototypeMethod m))
       | None => None
       end.

(** [o[k]] on an object created by a literal or by [JSON.parse]: own
    properties first, then [Object.prototype]; [undefined] when the
    chain ends. *)
Definition getObjectProperty (props : list (jsstring * Value)) (k : jsstring)
  : Value :=
  match ownProperty props k with
  | Some v => v
  | None =>
      match objectPrototypeProperty k with
      | Some v => v
      | None => VUndefined
      end
  end.

(** [v[k]] for any value.  Reading a property of [undefined] or [null]
    throws.  The intrinsic properties of strings, numbers, booleans,
    arrays and built-ins ([length], indices, methods) are not modelled:
    none of the keys this program reads ([name], [traits], [interests],
    [persona], [location], [xHandle]) is one of them, so the read falls
    through to [Object.prototype]. *)
Definition getProperty (v : Value) (k : jsstring) : Outcome Value :=
  match v with
  | VUndefined | VNull =>
      Throw (TypeError "Cannot read properties of undefined or null")
  | VObject props => Ok (getObjectProperty props k)
  | _ => Ok match objectPrototypeProperty k with
            | Some p => p
            | None => VUndefined
            end
  end.

(** ToString, for the values whose conversion is a fixed text; [None]
    stands for the conversions that are not modelled (numbers, arrays,
    plain objects). *)
Definition ToString (v : Value) : option jsstring :=
  match v with
  | VUndefined => Some (js "undefined")
  | VNull => Some (js "null")
  | VBool true => Some (js "true")
  | VBool false => Some (js "false")
  | VString s => Some s
  | VNative ObjectConstructor => Some (js "function Object() { [native code] }")
  | VNative ObjectPrototype => Some (js "[object Object]")
  | VNative (ObjectPrototypeMethod m) =>
      Some (js "function " ++ js m ++ js "() { [native code] }")
  | VNumber _ | VArray _ | VObject _ => None
  end.

End JS.

Import JS.

(** ** Effects: outbound calls and exceptions

    A computation yields the list of outbound calls it made, in order,
    and either a value or a thrown exception. *)

Module Eff.

Section Monad.
Variable Event : Type.

Definition M (A : Type) : Type := list Event * Outcome A.

Definition ret {A} (a : A) : M A := ([], Ok a).
Definition throw {A} (e : Exn) : M A := ([], Throw e).
Definition emit (ev : Event) : M unit := ([ev], Ok tt).
Definition lift {A} (o : Outcome A) : M A := ([], o).

Definition bind {A B} (m : M A) (k : A -> M B) : M B :=
  match m with
  | (t, Ok a) => let (t', r) := k a in (t ++ t', r)
  | (t, Throw e) => (t, Throw e)
  end.

(** [try { m } catch (error) { h error }] *)
Definition tryCatch {A} (m : M A) (h : Exn -> M A) : M A :=
  match m with
  | (t, Ok a) => (t, Ok a)
  | (t, Throw e) => let (t', r) := h e in (t ++ t', r)
  end.
End Monad.

Arguments ret {Event A} a.
Arguments throw {Event A} e.
Arguments lift {Event A} o.
Arguments emit {Event} ev.
Arguments bind {Event A B} m k.
Arguments tryCatch {Event A} m h.

Declare Scope eff_scope.
Delimit Scope eff_scope with eff.
Notation "x <- m ;; k" := (bind m (fun x => k))
  (at level 61, m at next level, right associativity) : eff_scope.
Notation "m ;;; k" := (bind m (fun _ => k))
  (at level 61, right associativity) : eff_scope.

End Eff.

Import Eff.

(** ** types/api.ts, and the Location of components/LocationList.tsx *)

Record ExtraInfo := {
  title : option jsstring;
  author : option jsstring;
  publish_date : option jsstring;
  image_url : option jsstring
}.

Record ExaChunk := {
  text : jsstring;
  url : jsstring;
  extra_info : option ExtraInfo
}.

Record ExaSearchResult := {
  chunks : list ExaChunk;
  total_chunk_count : N
}.

Record LatLng := { lat : float; lng : float }.

Record Location := {
  locationId : jsstring;
  locationName : jsstring;
  address : jsstring;
  description : jsstring;
  category : jsstring;
  coordinates : LatLng;
  rating : option float
}.

(** Modelled from the spec: [PersonaGenerationContext] of types/persona,
    which is not among the sources.  The fields are the ones the two
    prompt builders destructure; [bio] and [profileDescription] are
    optional strings. *)
Record PersonaGenerationContext := {
  recentTweets : list jsstring;
  contextBio : option jsstring;
  profileDescription : option jsstring
}.

(** ** The outside world

    Outbound HTTP requests, the environment and the two built-ins whose
    algorithms are not part of this repository are oracles. *)

Record SearchBody := {
  query : jsstring;
  num_results : N;
  use_autoprompt : bool;
  include_domains : list jsstring;
  highlights : bool;
  text_search_strategy : jsstring
}.

Record AxiosRequest := {
  requestUrl : jsstring;
  requestData : SearchBody;
  requestHeaders : list (jsstring * option jsstring)
}.

Inductive Role := system | user.

Record ChatRequest := {
  model : jsstring;
  messages : list (Role * jsstring);
  temperature : float;
  response_format : jsstring
}.

Record ChatMessage := { content : option jsstring }.
Record ChatChoice := { message : option ChatMessage }.
Record ChatCompletion := { choices : list ChatChoice }.

Record World := {
  EXA_API_KEY : option jsstring;
  OPENAI_API_KEY : option jsstring;
  (** [(await axios.post(url, data, config)).data] *)
  axios_post : AxiosRequest -> Outcome ExaSearchResult;
  (** [await client.chat.completions.create(request)] *)
  chat_completions_create : ChatRequest -> Outcome ChatCompletion;
  (** [JSON.parse] *)
  JSON_parse : jsstring -> Outcome Value;
  (** [String.prototype.toLowerCase] *)
  toLowerCase : jsstring -> jsstring;
  (** Modelled from the spec: the Location Recommender of lib/google-maps,
      which is not among the sources; [findLocations(persona, cityName)]
      yields a list of locations or fails. *)
  findRecommendedLocations : Value -> Value -> Outcome (list Location)
}.

Inductive Event :=
| ExaSearch (request : AxiosRequest)
| OpenAIChat (request : ChatRequest)
| MapsFind (persona location : Value)
| ConsoleError (label : string) (error : Exn).

Definition IO := M Event.

(** What a module exports under a name: an instance of a client class,
    or an arrow function of no arguments that yields one (the lazy
    singletons at the end of lib/exa.ts and lib/openai.ts). *)
Inductive Export (C : Type) :=
| Instance (c : C)
| Factory (make : unit -> C).
Arguments Instance {C} c.
Arguments Factory {C} make.

(** [binding()] *)
Definition invoke {C} (binding : Export C) : IO C :=
  match binding with
  | Factory make => ret (make tt)
  | Instance _ => throw (TypeError "binding is not a function")
  end.

(** [binding.method(...)]: a function object has no property of the
    method's name, so the read gives [undefined] and the call throws. *)
Definition callMethod {C A} (binding : Export C) (method : C -> IO A) : IO A :=
  match binding with
  | Instance c => method c
  | Factory _ => throw (TypeError "binding.method is not a function")
  end.

Local Open Scope eff_scope.

Definition nl : jsstring := [10%N].
Definition dq : jsstring := [34%N].

(** The text of a template literal, line by line. *)
Definition unlines (lines : list jsstring) : jsstring := join nl lines.

(** ** lib/exa.ts *)

Module Exa.

Record ProfileInfo := {
  tweets : list jsstring;
  bio : option jsstring;
  profileImageUrl : option jsstring;
  name : option jsstring
}.

Definition initialProfileInfo : ProfileInfo :=
  {| tweets := []; bio := None; profileImageUrl := None; name := None |}.

(** [chunk.extra_info?.image_url] and [chunk.extra_info?.title] *)
Definition chunkImageUrl (chunk : ExaChunk) : option jsstring :=
  match extra_info chunk with
  | Some e => image_url e
  | None => None
  end.

Definition chunkTitle (chunk : ExaChunk) : option jsstring :=
  match extra_info chunk with
  | Some e => title e
  | None => None
  end.

(** The predicate of the [filter] call on the trimmed lines. *)
Definition bioLineOk (line : jsstring) : bool :=
  (10 <? lengthOf line)
  && negb (includes line (js "Followers"))
  && negb (includes line (js "Following"))
  && negb (includes line (js "Posts"))
  && negb (startsWith line (js "@")).

Definition bioLines (chunk : ExaChunk) : list jsstring :=
  filter bioLineOk (map trim (split 10 (text chunk))).

Definition pushTweet (p : ProfileInfo) (chunk : ExaChunk) : ProfileInfo :=
  if nonEmpty (text chunk) && nonEmpty (trim (text chunk)) then
    {| tweets := tweets p ++ [trim (text chunk)]; bio := bio p;
       profileImageUrl := profileImageUrl p; name := name p |}
  else p.

Definition setImage (p : ProfileInfo) (chunk : ExaChunk) : ProfileInfo :=
  if negb (truthyStr (profileImageUrl p)) && truthyStr (chunkImageUrl chunk) then
    {| tweets := tweets p; bio := bio p;
       profileImageUrl := chunkImageUrl chunk; name := name p |}
  else p.

Definition setName (p : ProfileInfo) (chunk : ExaChunk) : ProfileInfo :=
  if negb (truthyStr (name p)) && truthyStr (chunkTitle chunk) then
    match chunkTitle chunk with
    | Some t =>
        match matchBeforeParen t with
        | Some g =>
            if nonEmpty g then
              {| tweets := tweets p; bio := bio p;
                 profileImageUrl := profileImageUrl p; name := Some (trim g) |}
            else p
        | None => p
        end
    | None => p
    end
  else p.

Definition setBio (p : ProfileInfo) (chunk : ExaChunk) : ProfileInfo :=
  if negb (truthyStr (bio p)) && negb (includes (url chunk) (js "/status/")) then
    match bioLines chunk with
    | line :: _ =>
        {| tweets := tweets p; bio := Some line;
           profileImageUrl := profileImageUrl p; name := name p |}
    | [] => p
    end
  else p.

(** The body of the [forEach] callback. *)
Definition processChunk (p : ProfileInfo) (chunk : ExaChunk) : ProfileInfo :=
  setBio (setName (setImage (pushTweet p chunk) chunk) chunk) chunk.

Definition extractProfileInfo (searchResult : ExaSearchResult) : ProfileInfo :=
  fold_left processChunk (chunks searchResult) initialProfileInfo.

Record ExaClient := { apiKey : option jsstring; baseUrl : jsstring }.

(** [new ExaClient(apiKey)] *)
Definition newExaClient (w : World) (key : option jsstring) : ExaClient :=
  {| apiKey := if truthyStr key then key else EXA_API_KEY w;
     baseUrl := js "https://api.exa.ai/search" |}.

Definition validateApiKey (this : ExaClient) : IO unit :=
  if negb (truthyStr (apiKey this))
  then throw (Error "Exa API key is required")
  else ret tt.

Definition cleanHandle (xHandle : jsstring) : jsstring :=
  replaceLeadingAt xHandle.

Definition searchQuery (xHandle : jsstring) : jsstring :=
  js "site:twitter.com @" ++ cleanHandle xHandle
     ++ js " OR from:" ++ cleanHandle xHandle.

Definition searchRequest (this : ExaClient) (xHandle : jsstring) : AxiosRequest :=
  {| requestUrl := baseUrl this;
     requestData :=
       {| query := searchQuery xHandle;
          num_results := 10;
          use_autoprompt := true;
          include_domains := [js "twitter.com"; js "x.com"];
          highlights := true;
          text_search_strategy := js "keyword" |};
     requestHeaders :=
       [ (js "Content-Type", Some (js "application/json"));
         (js "X-API-Key", apiKey this) ] |}.

Definition searchXProfile (w : World) (this : ExaClient) (xHandle : jsstring)
  : IO ExaSearchResult :=
  tryCatch
    (validateApiKey this ;;;
     emit (ExaSearch (searchRequest this xHandle)) ;;;
     lift (axios_post w (searchRequest this xHandle)))
    (fun error =>
       emit (ConsoleError "Error searching X profile:" error) ;;;
       throw (Error "Failed to search X profile")).

(** [export const exaClient = () => { ... return clientInstance; }] *)
Definition exaClient (w : World) : Export ExaClient :=
  Factory (fun _ => newExaClient w None).

End Exa.

(** ** lib/openai.ts *)

Module OpenAI.

(** The SDK handle made by [new OpenAI({ apiKey })]. *)
Record SDK := { sdkApiKey : option jsstring }.

Record OpenAIClient := { client : option SDK; apiKey : option jsstring }.

(** [new OpenAIClient(apiKey)] *)
Definition newOpenAIClient (w : World) (key : option jsstring) : OpenAIClient :=
  {| client := None;
     apiKey := if truthyStr key then key else OPENAI_API_KEY w |}.

(** [initializeClient] caches the handle in [this.client]; the updated
    instance is returned next to the handle. *)
Definition initializeClient (this : OpenAIClient) : Outcome (OpenAIClient * SDK) :=
  match client this with
  | Some c => Ok (this, c)
  | None =>
      if negb (truthyStr (apiKey this))
      then Throw (Error "OpenAI API key is required")
      else let c := {| sdkApiKey := apiKey this |} in
           Ok ({| client := Some c; apiKey := apiKey this |}, c)
  end.

Definition systemPrompt : jsstring :=
  unlines [
    [];
    js "        You are an expert at understanding people based on their social media presence.";
    js "        Your task is to create a detailed persona based on someone's X (formerly Twitter) posts and bio.";
    js "        Analyze the content, style, interests, and values expressed in their posts to build this persona.";
    js "        ";
    js "        Return a JSON object with the following structure:";
    js "        {";
    js "          " ++ dq ++ js "name" ++ dq ++ js ": " ++ dq ++ js "Their name (if available, otherwise 'Unknown User')" ++ dq ++ js ",";
    js "          " ++ dq ++ js "handle" ++ dq ++ js ": " ++ dq ++ js "Their X handle (without the @ symbol)" ++ dq ++ js ",";
    js "          " ++ dq ++ js "bio" ++ dq ++ js ": " ++ dq ++ js "A concise 1-2 sentence description of who they are" ++ dq ++ js ",";
    js "          " ++ dq ++ js "traits" ++ dq ++ js ": [" ++ dq ++ js "trait1" ++ dq ++ js ", " ++ dq ++ js "trait2" ++ dq ++ js ", " ++ dq ++ js "trait3" ++ dq ++ js ", " ++ dq ++ js "trait4" ++ dq ++ js ", " ++ dq ++ js "trait5" ++ dq ++ js "],";
    js "          " ++ dq ++ js "interests" ++ dq ++ js ": [" ++ dq ++ js "interest1" ++ dq ++ js ", " ++ dq ++ js "interest2" ++ dq ++ js ", " ++ dq ++ js "interest3" ++ dq ++ js ", " ++ dq ++ js "interest4" ++ dq ++ js ", " ++ dq ++ js "interest5" ++ dq ++ js "]";
    js "        }";
    js "        ";
    js "        The traits should represent personality characteristics, communication style, and values.";
    js "        The interests should be specific topics, activities, or areas they seem interested in.";
    js "        Be specific and precise in your analysis. Base your assessment purely on the provided data.";
    js "      " ].

(** The bullet of the source text: code units U+00E2 U+20AC U+00A2,
    then a space. *)
Definition bullet : jsstring := [226; 8364; 162; 32]%N.

Definition tweetList (tweets : list jsstring) : jsstring :=
  join nl (map (fun tweet => bullet ++ tweet) (slice0 10 tweets)).

(** [bio ? `Bio: ${bio}\n\n` : ''] *)
Definition bioPart (bio : option jsstring) : jsstring :=
  match bio with
  | Some b => if nonEmpty b then js "Bio: " ++ b ++ nl ++ nl else []
  | None => []
  end.

Definition userMessage (context : PersonaGenerationContext) : jsstring :=
  unlines [
    [];
    js "        Here's information from an X (Twitter) user's profile:";
    js "        ";
    js "        " ++ bioPart (contextBio context);
    js "        ";
    js "        Recent posts:";
    js "        " ++ tweetList (recentTweets context);
    js "        ";
    js "        Based on this information, create a persona for this user.";
    js "      " ].

Definition chatRequest (context : PersonaGenerationContext) : ChatRequest :=
  {| model := js "gpt-4";
     messages := [ (system, systemPrompt); (user, userMessage context) ];
     temperature := 0.7%float;
     response_format := js "json_object" |}.

(** [response.choices[0]?.message?.content] *)
Definition firstContent (response : ChatCompletion) : option jsstring :=
  match choices response with
  | choice :: _ =>
      match message choice with
      | Some m => content m
      | None => None
      end
  | [] => None
  end.

(** [!personaData.name || !personaData.traits || !personaData.interests],
    evaluated left to right. *)
Definition invalidFormat (personaData : Value) : Outcome bool :=
  match getProperty personaData (js "name") with
  | Throw e => Throw e
  | Ok n =>
      if negb (truthy n) then Ok true
      else match getProperty personaData (js "traits") with
           | Throw e => Throw e
           | Ok t =>
               if negb (truthy t) then Ok true
               else match getProperty personaData (js "interests") with
                    | Throw e => Throw e
                    | Ok i => Ok (negb (truthy i))
                    end
           end
  end.

Definition GenerationFailure : Exn := Error "Failed to generate persona".

Definition generatePersona (w : World) (this : OpenAIClient)
    (context : PersonaGenerationContext) : IO Value :=
  tryCatch
    (_ <- lift (initializeClient this) ;;
     emit (OpenAIChat (chatRequest context)) ;;;
     response <- lift (chat_completions_create w (chatRequest context)) ;;
     match firstContent response with
     | Some text =>
         if nonEmpty text then
           personaData <- lift (JSON_parse w text) ;;
           invalid <- lift (invalidFormat personaData) ;;
           if (invalid : bool)
           then throw (Error "Failed to generate persona: Invalid response format")
           else ret personaData
         else throw (Error "Failed to generate persona: Empty response from OpenAI")
     | None => throw (Error "Failed to generate persona: Empty response from OpenAI")
     end)
    (fun error =>
       emit (ConsoleError "Error generating persona:" error) ;;;
       throw GenerationFailure).

(** [export const openaiClient = () => { ... return clientInstance; }] *)
Definition openaiClient (w : World) : Export OpenAIClient :=
  Factory (fun _ => newOpenAIClient w None).

End OpenAI.

(** ** PromptEngineer (prompt templates) *)

Module PromptEngineer.

Definition bullet : jsstring := [226; 8364; 162; 32]%N.

Definition tweetList (tweets : list jsstring) : jsstring :=
  join nl (map (fun tweet => bullet ++ tweet) (slice0 10 tweets)).

Definition bioPart (bio : option jsstring) : jsstring :=
  match bio with
  | Some b => if nonEmpty b then js "Bio: " ++ b ++ nl ++ nl else []
  | None => []
  end.

Definition descriptionPart (d : option jsstring) : jsstring :=
  match d with
  | Some t => if nonEmpty t then js "Profile description: " ++ t ++ nl ++ nl else []
  | None => []
  end.

Definition createPersonaUserPrompt (context : PersonaGenerationContext) : jsstring :=
  unlines [
    [];
    js "      Here's information from an X (Twitter) user's profile:";
    js "      ";
    js "      " ++ bioPart (contextBio context);
    js "      " ++ descriptionPart (profileDescription context);
    js "      ";
    js "      Recent posts:";
    js "      " ++ tweetList (recentTweets context);
    js "      ";
    js "      Based on this information, create a persona for this user following the format in your instructions.";
    js "      Focus especially on traits and interests that might influence what locations they would enjoy visiting.";
    js "    " ].

(** [[.,;:!?]] *)
Definition isPunctuation (c : N) : bool :=
  (N.eqb c 46 || N.eqb c 44 || N.eqb c 59 || N.eqb c 58 || N.eqb c 33
   || N.eqb c 63)%bool.

(** [s.replace(/\s+/g, ' ')]: every maximal run of white space becomes
    one space; [\s] is the set of [isWhiteSpace].  The space is written
    when the last unit of the run is read. *)
Fixpoint collapseWhiteSpace (s : jsstring) : jsstring :=
  match s with
  | [] => []
  | c :: r =>
      if isWhiteSpace c then
        match r with
        | d :: _ =>
            if isWhiteSpace d then collapseWhiteSpace r
            else 32%N :: collapseWhiteSpace r
        | [] => [32%N]
        end
      else c :: collapseWhiteSpace r
  end.

(** [s.replace(/\s+([.,;:!?])/g, '$1')]: a run of white space is removed
    when the unit after the run is a punctuation mark, and kept
    otherwise; a unit of the run is dropped when the rest of its run is
    followed by a mark. *)
Fixpoint dropSpaceBeforePunctuation (s : jsstring) : jsstring :=
  match s with
  | [] => []
  | c :: r =>
      if isWhiteSpace c then
        match dropWhile isWhiteSpace r with
        | p :: _ =>
            if isPunctuation p then dropSpaceBeforePunctuation r
            else c :: dropSpaceBeforePunctuation r
        | [] => c :: dropSpaceBeforePunctuation r
        end
      else c :: dropSpaceBeforePunctuation r
  end.

Definition optimizePrompt (prompt : jsstring) : jsstring :=
  dropSpaceBeforePunctuation (collapseWhiteSpace (trim prompt)).

End PromptEngineer.

(** ** The route handlers *)

Record ResponseBody := {
  success : bool;
  error : option string;
  responseLocations : option (list Location);
  responsePersona : option Value
}.

Record Response := { status : N; body : ResponseBody }.

Definition failure (message : string) (code : N) : Response :=
  {| status := code;
     body := {| success := false; error := Some message;
                responseLocations := None; responsePersona := None |} |}.

(** ** app/api/locations/route.ts *)

Module LocationsRoute.

Inductive GoogleMapsClient := theGoogleMapsClient.

(** Modelled from the spec: the export [googleMapsClient] of
    lib/google-maps, which is not among the sources.  The handler calls
    it as a function, and the clients are lazily constructed shared
    instances, as in lib/exa.ts and lib/openai.ts. *)
Definition googleMapsClient : Export GoogleMapsClient :=
  Factory (fun _ => theGoogleMapsClient).

(** [request] is the outcome of [await request.json()]. *)
Definition POST (w : World) (request : Outcome Value) : IO Response :=
  tryCatch
    (body <- lift request ;;
     persona <- lift (getProperty body (js "persona")) ;;
     location <- lift (getProperty body (js "location")) ;;
     if negb (truthy persona) || negb (truthy location) then
       ret (failure "Invalid request. Please provide both persona and location." 400)
     else
       _ <- invoke googleMapsClient ;;
       emit (MapsFind persona location) ;;;
       recommendedLocations <- lift (findRecommendedLocations w persona location) ;;
       if Nat.eqb (List.length recommendedLocations) 0 then
         ret (failure "No suitable locations found. Please try a different location or X profile." 404)
       else
         ret {| status := 200;
                body := {| success := true; error := None;
                           responseLocations := Some recommendedLocations;
                           responsePersona := None |} |})
    (fun error =>
       emit (ConsoleError "Error generating locations:" error) ;;;
       ret (failure "Failed to find recommended locations. Please try again later." 500)).

End LocationsRoute.

(** ** app/api/persona/route.ts *)

Module PersonaRoute.

(** [xHandle.replace(/^@/, '')]: only a string has [replace]. *)
Definition replaceOf (xHandle : Value) : IO jsstring :=
  match xHandle with
  | VString s => ret (replaceLeadingAt s)
  | _ => throw (TypeError "xHandle.replace is not a function")
  end.

(** [profileInfo.bio || ''] *)
Definition bioOrEmpty (bio : option jsstring) : option jsstring :=
  if truthyStr bio then bio else Some [].

(** [{ ...personaData, profileImageUrl }]: the own properties of the
    persona, then the image.  (Only an object passes the validation of
    [generatePersona]; the spread of other values is not modelled.) *)
Definition withProfileImage (personaData : Value) (image : option jsstring) : Value :=
  let own := match personaData with VObject props => props | _ => [] end in
  VObject ((js "profileImageUrl",
            match image with Some u => VString u | None => VUndefined end)
           :: filter (fun kv => negb (streq (fst kv) (js "profileImageUrl"))) own).

(** The handler, over the two bindings it imports. *)
Definition handle (exaClient : Export Exa.ExaClient)
    (openaiClient : Export OpenAI.OpenAIClient)
    (w : World) (request : Outcome Value) : IO Response :=
  tryCatch
    (body <- lift request ;;
     xHandle <- lift (getProperty body (js "xHandle")) ;;
     if negb (truthy xHandle) then
       ret (failure "Invalid X handle. Please provide a valid X username." 400)
     else
       cleanHandle <- replaceOf xHandle ;;
       searchResult <- callMethod exaClient
                         (fun c => Exa.searchXProfile w c cleanHandle) ;;
       profileInfo <- callMethod exaClient
                        (fun _ => ret (Exa.extractProfileInfo searchResult)) ;;
       if Nat.eqb (List.length (Exa.tweets profileInfo)) 0 then
         ret (failure "Could not find X profile data. Please check the handle and try again." 404)
       else
         personaData <- callMethod openaiClient
                          (fun c => OpenAI.generatePersona w c
                             {| recentTweets := Exa.tweets profileInfo;
                                contextBio := bioOrEmpty (Exa.bio profileInfo);
                                profileDescription := None |}) ;;
         ret {| status := 200;
                body := {| success := true; error := None;
                           responseLocations := None;
                           responsePersona :=
                             Some (withProfileImage personaData
                                     (Exa.profileImageUrl profileInfo)) |} |})
    (fun error =>
       emit (ConsoleError "Error generating persona:" error) ;;;
       ret (failure "Failed to generate persona. Please try again later." 500)).

(** The handler as the module binds it: [exaClient] and [openaiClient]
    are the exports of lib/exa.ts and lib/openai.ts. *)
Definition POST (w : World) (request : Outcome Value) : IO Response :=
  handle (Exa.exaClient w) (OpenAI.openaiClient w) w request.

End PersonaRoute.

(** ** components/LocationList.tsx *)

Module LocationList.

Definition categories : list (jsstring * Value) :=
  [
    (js "restaurant", VString [55356; 57213; 65039]%N);
    (js "cafe", VString [9749]%N);
    (js "bar", VString [55356; 57208]%N);
    (js "park", VString [55356; 57139]%N);
    (js "museum", VString [55356; 57307; 65039]%N);
    (js "shopping", VString [55357; 57037; 65039]%N);
    (js "entertainment", VString [55356; 57261]%N);
    (js "sports", VString [55356; 57283]%N);
    (js "fitness", VString [55357; 56490]%N);
    (js "education", VString [55357; 56538]%N);
    (js "work", VString [55357; 56508]%N);
    (js "tech", VString [55357; 56507]%N);
    (js "art", VString [55356; 57256]%N);
    (js "music", VString [55356; 57269]%N);
    (js "outdoor", VString [55356; 57310; 65039]%N);
    (js "default", VString [55357; 56525]%N) ].

Definition getCategoryEmoji (w : World) (category : jsstring) : Value :=
  orElse (getObjectProperty categories (toLowerCase w category))
         (getObjectProperty categories (js "default")).

Record Props := {
  locations : list Location;
  selectedLocationId : option jsstring;
  profileImage : option jsstring
}.

(** [selectedLocationId === location.id]; [null] equals no id. *)
Definition isSelected (selected : option jsstring) (location : Location) : bool :=
  match selected with
  | Some s => streq s (locationId location)
  | None => false
  end.

Inductive Avatar :=
| ProfileAvatar (src : jsstring)
| EmojiAvatar (glyph : Value).

(** What [{location.rating && (...)}] renders: nothing for a missing
    rating, the badge for a truthy one, and the number itself for the
    falsy numbers 0 and NaN. *)
Inductive RatingSlot :=
| NoRating
| BareNumber (r : float)
| RatingBadge (r : float).

Definition ratingSlot (r : option float) : RatingSlot :=
  match r with
  | None => NoRating
  | Some x => if truthy (VNumber x) then RatingBadge x else BareNumber x
  end.

Record Card := {
  cardKey : jsstring;
  highlighted : bool;
  avatar : Avatar;
  heading : jsstring;
  badge : RatingSlot;
  cardAddress : jsstring;
  chip : Value * jsstring;
  cardDescription : jsstring
}.

Definition card (w : World) (props : Props) (location : Location) : Card :=
  {| cardKey := locationId location;
     highlighted := isSelected (selectedLocationId props) location;
     avatar := if truthyStr (profileImage props)
               then match profileImage props with
                    | Some src => ProfileAvatar src
                    | None => EmojiAvatar (getCategoryEmoji w (category location))
                    end
               else EmojiAvatar (getCategoryEmoji w (category location));
     heading := locationName location;
     badge := ratingSlot (rating location);
     cardAddress := address location;
     chip := (getCategoryEmoji w (category location), category location);
     cardDescription := description location |}.

Inductive ListView :=
| NoLocationsFound
| Cards (cards : list Card).

(** The component: the placeholder for an empty list, else one card per
    location, in order. *)
Definition LocationList (w : World) (props : Props) : ListView :=
  if Nat.eqb (List.length (locations props)) 0 then NoLocationsFound
  else Cards (map (card w props) (locations props)).

End LocationList.

(** ** components/LocationMap.tsx *)

Module LocationMap.

Definition toronto : LatLng := {| lat := 43.6532; lng := -79.3832 |}.

Record Props := {
  locations : list Location;
  selectedLocationId : option jsstring;
  profileImage : option jsstring;
  centerCoordinates : option LatLng
}.

(** [google.maps.LatLngBounds], an interface of the Maps SDK. *)
Class LatLngBoundsAPI := {
  LatLngBounds : Type;
  newLatLngBounds : LatLngBounds;
  extend : LatLngBounds -> LatLng -> LatLngBounds;
  getNorthEast : LatLngBounds -> LatLng;
  getSouthWest : LatLngBounds -> LatLng
}.

Section Component.
Context {api : LatLngBoundsAPI}.

(** [useState({ lat: 43.6532, lng: -79.3832 })] *)
Definition initialMapCenter : option LatLng := Some toronto.

Definition boundsOf (locs : list Location) : LatLngBounds :=
  fold_left (fun bounds location => extend bounds (coordinates location))
            locs newLatLngBounds.

Definition boundsCenter (locs : list Location) : LatLng :=
  let bounds := boundsOf locs in
  {| lat := (lat (getNorthEast bounds) + lat (getSouthWest bounds)) / 2;
     lng := (lng (getNorthEast bounds) + lng (getSouthWest bounds)) / 2 |}%float.

Definition isNone {A} (o : option A) : bool :=
  match o with None => true | Some _ => false end.

(** One run of the effect: the state [mapCenter] after it. *)
Definition centerEffect (props : Props) (mapCenter : option LatLng)
  : option LatLng :=
  if (0 <? List.length (locations props))
     && isNone (centerCoordinates props) && isNone mapCenter
  then Some (boundsCenter (locations props))
  else match centerCoordinates props with
       | Some c => Some c
       | None => mapCenter
       end.

(** The state after the renders of a mounted component, one effect
    run per render, in order. *)
Definition mapCenterAfter (renders : list Props) : option LatLng :=
  fold_left (fun mapCenter props => centerEffect props mapCenter)
            renders initialMapCenter.

(** [center={mapCenter || { lat: 43.6532, lng: -79.3832 }}] *)
Definition centerProp (mapCenter : option LatLng) : LatLng :=
  match mapCenter with
  | Some c => c
  | None => toronto
  end.

Inductive MapCall :=
| FitBounds (bounds : LatLngBounds)
| SetCenter (center : LatLng)
| SetZoom (zoom : N)
| SetTilt (tilt : N)
| SetHeading (heading : N)
| SetMapTypeId (mapType : string).

(** The calls [onLoad] makes on the map. *)
Definition onLoad (locs : list Location) : list MapCall :=
  (if 0 <? List.length locs
   then [FitBounds (boundsOf locs)]
   else [SetCenter toronto; SetZoom 12])
  ++ [SetTilt 45; SetHeading 45; SetMapTypeId "SATELLITE"].

End Component.

Definition colors : list (jsstring * Value) :=
  [
    (js "restaurant", VString (js "FF5252"));
    (js "cafe", VString (js "FFAB40"));
    (js "bar", VString (js "7C4DFF"));
    (js "park", VString (js "66BB6A"));
    (js "museum", VString (js "FFC107"));
    (js "shopping", VString (js "EC407A"));
    (js "entertainment", VString (js "448AFF"));
    (js "sports", VString (js "26A69A"));
    (js "fitness", VString (js "EF5350"));
    (js "education", VString (js "5C6BC0"));
    (js "work", VString (js "78909C"));
    (js "tech", VString (js "42A5F5"));
    (js "art", VString (js "AB47BC"));
    (js "music", VString (js "26C6DA"));
    (js "outdoor", VString (js "9CCC65"));
    (js "default", VString (js "757575")) ].

Inductive MarkerIcon :=
| Icon (iconUrl : jsstring) (scaledSize origin anchor : N * N)
| Symbol (fillColor : option jsstring) (fillOpacity : float)
         (strokeWeight : N) (strokeColor : jsstring) (scale : float).

(** [const color = colors[category.toLowerCase()] || colors.default] *)
Definition categoryColor (w : World) (category : jsstring) : Value :=
  orElse (getObjectProperty colors (toLowerCase w category))
         (getObjectProperty colors (js "default")).

Definition getCategoryIcon (profile : option jsstring) (w : World)
    (category : jsstring) (selected : bool) : MarkerIcon :=
  match profile with
  | Some image =>
      if nonEmpty image then Icon image (40, 40)%N (0, 0)%N (20, 20)%N
      else
        Symbol (option_map (app (js "#")) (ToString (categoryColor w category)))
               0.9%float 2 (js "#FFFFFF")
               ((if selected then 36 else 28) / 10)%float
  | None =>
      Symbol (option_map (app (js "#")) (ToString (categoryColor w category)))
             0.9%float 2 (js "#FFFFFF")
             ((if selected then 36 else 28) / 10)%float
  end.

Record MarkerView := {
  markerKey : jsstring;
  position : LatLng;
  icon : MarkerIcon;
  bounce : bool;
  infoWindow : option (jsstring * jsstring)
}.

Definition marker (w : World) (props : Props) (location : Location) : MarkerView :=
  let selected := LocationList.isSelected (selectedLocationId props) location in
  {| markerKey := locationId location;
     position := coordinates location;
     icon := getCategoryIcon (profileImage props) w (category location) selected;
     bounce := selected;
     infoWindow := if selected
                   then Some (locationName location, address location)
                   else None |}.

Inductive MapView :=
| LoadingMap
| GoogleMapView (center : LatLng) (zoom : N) (markers : list MarkerView).

(** The component for a script state and a [mapCenter] state. *)
Definition LocationMap (w : World) (isLoaded : bool) (mapCenter : option LatLng)
    (props : Props) : MapView :=
  if negb isLoaded || isNone mapCenter then LoadingMap
  else GoogleMapView (centerProp mapCenter) 12
         (map (marker w props) (locations props)).

(** What [handleMarkerClick] does: the selection is reported, and the
    map, when there is one and the id is found, is moved. *)
Inductive ClickEffect :=
| OnLocationSelect (locationId : jsstring)
| PanTo (target : LatLng)
| ZoomTo (zoom : N).

Inductive MapHandle := theMap.

Definition handleMarkerClick (props : Props) (map : option MapHandle)
    (clicked : jsstring) : list ClickEffect :=
  OnLocationSelect clicked ::
  match find (fun loc => streq (locationId loc) clicked) (locations props) with
  | Some selectedLocation =>
      match map with
      | Some _ => [ PanTo (coordinates selectedLocation); ZoomTo 15 ]
      | None => []
      end
  | None => []
  end.

(** The [map] state: [useState(null)]; [onLoad] receives the map but
    does not store it, [onUnmount] calls [setMap(null)]. *)
Inductive Lifecycle := MapLoaded (m : MapHandle) | MapUnmounted.

Definition mapStateAfter (events : list Lifecycle) : option MapHandle :=
  fold_left (fun state ev =>
               match ev with
               | MapLoaded _ => state
               | MapUnmounted => None
               end) events None.

End LocationMap.

(** ** lib/exa.ts, field by field

    The callback of [extractProfileInfo] updates each field of the
    accumulator from that field and the chunk alone; these are the
    updates, and the wording of the specification for the bio and the
    name. *)

Module ExaFields.
Import Exa.

(** The update of one field by one chunk. *)
Definition imageStep (image : option jsstring) (chunk : ExaChunk) : option jsstring :=
  if negb (truthyStr image) && truthyStr (chunkImageUrl chunk)
  then chunkImageUrl chunk else image.

(** The name a chunk offers: the trimmed capture of its title. *)
Definition titleName (chunk : ExaChunk) : option jsstring :=
  match chunkTitle chunk with
  | Some t =>
      if nonEmpty t then
        match matchBeforeParen t with
        | Some g => if nonEmpty g then Some (trim g) else None
        | None => None
        end
      else None
  | None => None
  end.

Definition nameStep (n : option jsstring) (chunk : ExaChunk) : option jsstring :=
  if negb (truthyStr n)
  then match titleName chunk with Some x => Some x | None => n end
  else n.

(** The lines of a chunk that may become the bio: none for a post. *)
Definition qualifyingLines (chunk : ExaChunk) : list jsstring :=
  if includes (url chunk) (js "/status/") then [] else bioLines chunk.

Definition bioStep (b : option jsstring) (chunk : ExaChunk) : option jsstring :=
  if negb (truthyStr b)
  then match qualifyingLines chunk with line :: _ => Some line | [] => b end
  else b.

(** The claim's wording of the bio rule, on the lines as they are split
    (no trimming): used to compare the claim with the code. *)
Definition untrimmedQualifyingLines (chunk : ExaChunk) : list jsstring :=
  if includes (url chunk) (js "/status/") then []
  else filter bioLineOk (split 10 (text chunk)).

Definition firstUntrimmedQualifyingLine (cs : list ExaChunk) : option jsstring :=
  hd_error (flat_map untrimmedQualifyingLines cs).

(** The claim's wording of the name rule: the first chunk whose title
    matches sets the name. *)
Definition firstTitleName (cs : list ExaChunk) : option jsstring :=
  hd_error (flat_map (fun c => match titleName c with Some x => [x] | None => [] end) cs).

Definition exposesImage (chunk : ExaChunk) : bool := truthyStr (chunkImageUrl chunk).

Definition offersName (chunk : ExaChunk) : bool := truthyStr (titleName chunk).

End ExaFields.

(** ** Sample data *)

Module Samples.

Definition plainChunk (t u : string) : ExaChunk :=
  {| text := js t; url := js u; extra_info := None |}.

Definition titledChunk (t u ttl : string) : ExaChunk :=
  {| text := js t; url := js u;
     extra_info := Some {| title := Some (js ttl); author := None;
                           publish_date := None; image_url := None |} |}.

Definition imageChunk (t u img : string) : ExaChunk :=
  {| text := js t; url := js u;
     extra_info := Some {| title := None; author := None;
                           publish_date := None; image_url := Some (js img) |} |}.

Definition resultOf (cs : list ExaChunk) : ExaSearchResult :=
  {| chunks := cs; total_chunk_count := N.of_nat (List.length cs) |}.

(** A profile page whose bio line is indented. *)
Definition indentedBio : ExaSearchResult :=
  resultOf [ plainChunk "  Loves hiking and open source." "https://x.com/jdoe" ].

(** The example of the specification. *)
Definition followersThenBio : ExaSearchResult :=
  resultOf [ plainChunk "Followers: 200" "https://x.com/jdoe";
             plainChunk "Loves hiking and open source." "https://x.com/jdoe";
             plainChunk "Writes about maps and compilers." "https://x.com/jdoe" ].

Definition twoImages : ExaSearchResult :=
  resultOf [ plainChunk "hello world" "https://x.com/jdoe/status/1";
             imageChunk "first" "https://x.com/jdoe" "https://pbs.twimg.com/a.jpg";
             imageChunk "second" "https://x.com/jdoe" "https://pbs.twimg.com/b.jpg" ].

(** A title with nothing but blanks before its parenthesis, then a
    usual one. *)
Definition blankThenNamed : ExaSearchResult :=
  resultOf [ titledChunk "one" "https://x.com/ghost" "  (@ghost) / X";
             titledChunk "two" "https://x.com/jdoe" "Jane Doe (@jdoe) / X" ].

Definition twoNames : ExaSearchResult :=
  resultOf [ plainChunk "hello world" "https://x.com/jdoe/status/1";
             titledChunk "one" "https://x.com/jdoe" "Jane Doe (@jdoe) / X";
             titledChunk "two" "https://x.com/jdoe" "John Roe (@jroe) / X" ].

(** [toLowerCase] on strings of ASCII code units. *)
Definition asciiToLowerCase (s : jsstring) : jsstring :=
  map (fun c => if (65 <=? c) && (c <=? 90) then c + 32 else c)%N s.

(** The text of a reply that has a name and nothing else. *)
Definition nameOnlyReply : jsstring :=
  js "{" ++ dq ++ js "name" ++ dq ++ js ":" ++ dq ++ js "Jane" ++ dq ++ js "}".

(** A world in which the search finds nothing, the model replies with
    [nameOnlyReply] and the recommender finds nothing. *)
Definition quietWorld : World :=
  {| EXA_API_KEY := Some (js "exa-key");
     OPENAI_API_KEY := Some (js "openai-key");
     axios_post := fun _ => Ok (resultOf []);
     chat_completions_create := fun _ =>
       Ok {| choices := [ {| message := Some {| content := Some nameOnlyReply |} |} ] |};
     JSON_parse := fun t =>
       if streq t nameOnlyReply
       then Ok (VObject [ (js "name", VString (js "Jane")) ])
       else Throw (SyntaxError "Unexpected token");
     toLowerCase := asciiToLowerCase;
     findRecommendedLocations := fun _ _ => Ok [] |}.

Definition someContext : PersonaGenerationContext :=
  {| recentTweets := [ js "Shipping a new map layer today." ];
     contextBio := Some [];
     profileDescription := None |}.

Definition twelveTweets : list jsstring :=
  map js [ "post 01"; "post 02"; "post 03"; "post 04"; "post 05"; "post 06";
           "post 07"; "post 08"; "post 09"; "post 10"; "post 11"; "post 12" ]%string.

Definition twelveTweetContext : PersonaGenerationContext :=
  {| recentTweets := twelveTweets;
     contextBio := Some (js "Loves hiking and open source.");
     profileDescription := None |}.

Definition somePersona : Value :=
  VObject [ (js "name", VString (js "Jane"));
            (js "handle", VString (js "jdoe"));
            (js "bio", VString (js "Cartographer."));
            (js "traits", VArray [ VString (js "curious") ]);
            (js "interests", VArray [ VString (js "maps") ]) ].

Definition locationsBody : list (jsstring * Value) :=
  [ (js "persona", somePersona); (js "location", VString (js "Toronto")) ].

Definition cityOnlyBody : list (jsstring * Value) :=
  [ (js "location", VString (js "Toronto")) ].

Definition handleBody : list (jsstring * Value) :=
  [ (js "xHandle", VString (js "jdoe")) ].

(** An axis-parallel box over points away from the antimeridian: an
    instance of the bounds interface. *)
Definition fmin (a b : float) : float := if PrimFloat.ltb b a then b else a.
Definition fmax (a b : float) : float := if PrimFloat.ltb a b then b else a.

Definition boxBounds : LocationMap.LatLngBoundsAPI :=
  {| LocationMap.LatLngBounds := option (LatLng * LatLng);
     LocationMap.newLatLngBounds := None;
     LocationMap.extend := fun b p =>
       match b with
       | None => Some (p, p)
       | Some (sw, ne) =>
           Some ({| lat := fmin (lat sw) (lat p); lng := fmin (lng sw) (lng p) |},
                 {| lat := fmax (lat ne) (lat p); lng := fmax (lng ne) (lng p) |})
       end;
     LocationMap.getNorthEast := fun b =>
       match b with
       | Some (_, ne) => ne
       | None => {| lat := (-1)%float; lng := (-180)%float |}
       end;
     LocationMap.getSouthWest := fun b =>
       match b with
       | Some (sw, _) => sw
       | None => {| lat := 1%float; lng := 180%float |}
       end |}.

Definition paris : LatLng := {| lat := 48.8566; lng := 2.3522 |}.

Definition louvre : Location :=
  {| locationId := js "1"; locationName := js "Louvre";
     address := js "Rue de Rivoli, Paris"; description := js "Museum";
     category := js "museum"; coordinates := paris; rating := None |}.

Definition parisProps : LocationMap.Props :=
  {| LocationMap.locations := [ louvre ];
     LocationMap.selectedLocationId := None;
     LocationMap.profileImage := None;
     LocationMap.centerCoordinates := None |}.

End Samples.

(** ** Views used by the statements *)

Module Views.

(** The queries of the search requests in a trace. *)
Definition outboundQueries (trace : list Event) : list jsstring :=
  flat_map (fun ev => match ev with
                      | ExaSearch r => [ query (requestData r) ]
                      | _ => []
                      end) trace.

(** The chat requests in a trace. *)
Definition chatRequests (trace : list Event) : list ChatRequest :=
  flat_map (fun ev => match ev with
                      | OpenAIChat r => [ r ]
                      | _ => []
                      end) trace.

(** A bulleted list: one bullet and item per line. *)
Definition bulleted (items : list jsstring) : jsstring :=
  join nl (map (fun item => OpenAI.bullet ++ item) items).

(** The snippet a chunk contributes to [tweets]. *)
Definition snippets (chunk : ExaChunk) : list jsstring :=
  if nonEmpty (text chunk) && nonEmpty (trim (text chunk))
  then [ trim (text chunk) ] else [].

Definition withTweets (tweets : list jsstring) (bio description : option jsstring)
  : PersonaGenerationContext :=
  {| recentTweets := tweets; contextBio := bio; profileDescription := description |}.

(** The default glyph, U+1F4CD, and the default marker colour. *)
Definition pin : Value := VString [55357; 56525]%N.

Definition grey : Value := VString (js "757575").

End Views.

(** ** Shapes of strings and of render histories *)

Module Shapes.

(** No white space at the end ([[]] included). *)
Fixpoint endsClean (s : jsstring) : bool :=
  match s with
  | [] => true
  | c :: r =>
      match r with
      | [] => negb (isWhiteSpace c)
      | _ :: _ => endsClean r
      end
  end.

(** No white space at the start ([[]] included). *)
Definition startsClean (s : jsstring) : bool :=
  match s with
  | [] => true
  | c :: _ => negb (isWhiteSpace c)
  end.

(** A tidy text: no white space at either end; every white space unit
    is one space, followed by a unit that is neither white space nor a
    punctuation mark. *)
Fixpoint spacedTidily (s : jsstring) : bool :=
  match s with
  | [] => true
  | c :: r =>
      if isWhiteSpace c then
        N.eqb c 32
        && match r with
           | d :: _ => negb (isWhiteSpace d) && negb (PromptEngineer.isPunctuation d)
           | [] => false
           end
        && spacedTidily r
      else spacedTidily r
  end.

Definition tidy (s : jsstring) : bool := startsClean s && spacedTidily s.

(** Every white space unit is one space followed by a unit that is not
    white space. *)
Fixpoint singleSpaced (s : jsstring) : bool :=
  match s with
  | [] => true
  | c :: r =>
      if isWhiteSpace c then
        N.eqb c 32
        && match r with
           | d :: _ => negb (isWhiteSpace d)
           | [] => false
           end
        && singleSpaced r
      else singleSpaced r
  end.

Definition visible (s : jsstring) : jsstring :=
  filter (fun c => negb (isWhiteSpace c)) s.

(** The explicit centres of a history of renders, in order. *)
Definition explicitCenters (renders : list LocationMap.Props) : list LatLng :=
  flat_map (fun props => match LocationMap.centerCoordinates props with
                         | Some c => [ c ]
                         | None => []
                         end) renders.

End Shapes.

(** ** More sample data *)

Module MoreSamples.
Import Samples.

(** The text of a complete reply (its letters do not matter: the
    parser of the world below maps it to [somePersona]). *)
Definition personaReply : jsstring :=
  js "{" ++ dq ++ js "name" ++ dq ++ js ":" ++ dq ++ js "Jane" ++ dq ++ js ", ...}".

(** A world in which every service answers. *)
Definition helpfulWorld : World :=
  {| EXA_API_KEY := Some (js "exa-key");
     OPENAI_API_KEY := Some (js "openai-key");
     axios_post := fun _ => Ok followersThenBio;
     chat_completions_create := fun _ =>
       Ok {| choices := [ {| message := Some {| content := Some personaReply |} |} ] |};
     JSON_parse := fun t =>
       if streq t personaReply then Ok somePersona
       else Throw (SyntaxError "Unexpected token");
     toLowerCase := asciiToLowerCase;
     findRecommendedLocations := fun _ _ => Ok [ louvre ] |}.

(** A world without keys in which every service fails. *)
Definition brokenWorld : World :=
  {| EXA_API_KEY := None;
     OPENAI_API_KEY := None;
     axios_post := fun _ => Throw (HostError "ECONNREFUSED");
     chat_completions_create := fun _ => Throw (HostError "429");
     JSON_parse := fun _ => Throw (SyntaxError "Unexpected token");
     toLowerCase := asciiToLowerCase;
     findRecommendedLocations := fun _ _ => Throw (HostError "OVER_QUERY_LIMIT") |}.

Definition keyedExa : Exa.ExaClient := Exa.newExaClient helpfulWorld None.
Definition keylessExa : Exa.ExaClient := Exa.newExaClient brokenWorld None.
Definition keyedOpenAI : OpenAI.OpenAIClient := OpenAI.newOpenAIClient helpfulWorld None.
Definition keylessOpenAI : OpenAI.OpenAIClient := OpenAI.newOpenAIClient brokenWorld None.

Definition paddedTweets : ExaSearchResult :=
  resultOf [ plainChunk "   " "https://x.com/jdoe/status/1";
             plainChunk "  Maps are arguments.  " "https://x.com/jdoe/status/2";
             plainChunk "Maps are arguments." "https://x.com/jdoe/status/3" ].

Definition eiffel : Location :=
  {| locationId := js "2"; locationName := js "Eiffel Tower";
     address := js "Champ de Mars, Paris"; description := js "Tower";
     category := js "entertainment";
     coordinates := {| lat := 48.8584; lng := 2.2945 |};
     rating := Some 4.7%float |}.

Definition twoPlaces : LocationMap.Props :=
  {| LocationMap.locations := [ louvre; eiffel ];
     LocationMap.selectedLocationId := Some (js "2");
     LocationMap.profileImage := None;
     LocationMap.centerCoordinates := None |}.

Definition twoPlacesList : LocationList.Props :=
  {| LocationList.locations := [ louvre; eiffel ];
     LocationList.selectedLocationId := Some (js "2");
     LocationList.profileImage := None |}.

Definition tokyo : LatLng := {| lat := 35.6762; lng := 139.6503 |}.

Definition sensoji : Location :=
  {| locationId := js "3"; locationName := js "Senso-ji";
     address := js "Asakusa, Tokyo"; description := js "Temple";
     category := js "museum"; coordinates := tokyo; rating := None |}.

Definition tokyoProps : LocationMap.Props :=
  {| LocationMap.locations := [ sensoji ];
     LocationMap.selectedLocationId := None;
     LocationMap.profileImage := None;
     LocationMap.centerCoordinates := None |}.

Definition noPlaces : LocationMap.Props :=
  {| LocationMap.locations := [];
     LocationMap.selectedLocationId := None;
     LocationMap.profileImage := None;
     LocationMap.centerCoordinates := None |}.

End MoreSamples.

(** ** More views of a trace *)

Module MoreViews.

(** The calls of the recommender in a trace. *)
Definition mapsCalls (trace : list Event) : list (Value * Value) :=
  flat_map (fun ev => match ev with
                      | MapsFind persona location => [ (persona, location) ]
                      | _ => []
                      end) trace.

(** A chunk whose text is blank after trimming. *)
Definition blank (chunk : ExaChunk) : bool := negb (nonEmpty (trim (text chunk))).

(** The text of the two user prompts before and after the list of
    tweets. *)
Definition userHeader (bio : option jsstring) : jsstring :=
  unlines [ [];
            js "        Here's information from an X (Twitter) user's profile:";
            js "        " ]
  ++ nl ++ js "        " ++ OpenAI.bioPart bio
  ++ nl ++ unlines [ js "        "; js "        Recent posts:" ]
  ++ nl ++ js "        ".

Definition userFooter : jsstring :=
  nl ++ unlines [ js "        ";
                  js "        Based on this information, create a persona for this user.";
                  js "      " ].

Definition engineerHeader (bio description : option jsstring) : jsstring :=
  unlines [ [];
            js "      Here's information from an X (Twitter) user's profile:";
            js "      " ]
  ++ nl ++ js "      " ++ PromptEngineer.bioPart bio
  ++ nl ++ js "      " ++ PromptEngineer.descriptionPart description
  ++ nl ++ unlines [ js "      "; js "      Recent posts:" ]
  ++ nl ++ js "      ".

Definition engineerFooter : jsstring :=
  nl ++ unlines [ js "      ";
                  js "      Based on this information, create a persona for this user following the format in your instructions.";
                  js "      Focus especially on traits and interests that might influence what locations they would enjoy visiting.";
                  js "    " ].

End MoreViews.

(** ** components/LocationMap.tsx: the calls on the map over its life

    The component hands [center], [zoom] and [onLoad] to the [GoogleMap]
    element.  That element applies the center and the zoom to the map it
    creates and then calls [onLoad], once; afterwards it applies the
    center again each time the component has set [mapCenter]. *)

Module MapLifecycle.
Import LocationMap.

Section Run.
Context {api : LatLngBoundsAPI}.

(** The argument of [setMapCenter] in one run of the effect, when the
    effect calls it. *)
Definition setMapCenterCall (props : Props) (mapCenter : option LatLng)
  : option LatLng :=
  if (0 <? List.length (locations props))
     && isNone (centerCoordinates props) && isNone mapCenter
  then Some (boundsCenter (locations props))
  else centerCoordinates props.

(** The calls when the map is created: [center={mapCenter || ...}],
    [zoom={12}], then [onLoad] with the locations of that render. *)
Definition loadCalls (props : Props) (mapCenter : option LatLng) : list MapCall :=
  [ SetCenter (centerProp mapCenter); SetZoom 12 ] ++ onLoad (locations props).

(** The calls of the later life: one effect run per render; a run that
    sets [mapCenter] makes the element apply the new center. *)
Fixpoint updateCalls (renders : list Props) (mapCenter : option LatLng)
  : list MapCall :=
  match renders with
  | [] => []
  | props :: rest =>
      match setMapCenterCall props mapCenter with
      | Some c => SetCenter c :: updateCalls rest (Some c)
      | None => updateCalls rest mapCenter
      end
  end.

(** A component created with the props [first] and then rendered with
    the props of [later], in order. *)
Definition callsOnMap (first : Props) (later : list Props) : list MapCall :=
  loadCalls first initialMapCenter
  ++ updateCalls (first :: later) initialMapCenter.

(** The calls that place the map. *)
Definition centring (call : MapCall) : bool :=
  match call with
  | FitBounds _ | SetCenter _ => true
  | _ => false
  end.

(** The call that decides where the map is: the last one that places
    it. *)
Definition centredBy (calls : list MapCall) : option MapCall :=
  hd_error (rev (filter centring calls)).

End Run.

End MapLifecycle.

(** * Properties *)

(** ** Strings *)

Module JSFacts.

Lemma streq_refl s : streq s s = true.
Proof.
  induction s as [|c s IH]; simpl; [reflexivity|].
  rewrite N.eqb_refl. exact IH.
Qed.

Lemma streq_eq a b : streq a b = true -> a = b.
Proof.
  revert b. induction a as [|x a IH]; intros [|y b]; simpl; try discriminate.
  - reflexivity.
  - intros H. apply andb_prop in H as [Hxy Hab].
    apply N.eqb_eq in Hxy. subst y. f_equal. apply IH. exact Hab.
Qed.

Lemma startsWith_app p s : startsWith (p ++ s) p = true.
Proof.
  induction p as [|x p IH]; simpl.
  - destruct s; reflexivity.
  - rewrite N.eqb_refl. exact IH.
Qed.

Lemma includes_startsWith s p : startsWith s p = true -> includes s p = true.
Proof.
  intros H. destruct s; simpl in *; rewrite H; reflexivity.
Qed.

Lemma includes_app a sub b : includes (a ++ sub ++ b) sub = true.
Proof.
  induction a as [|x a IH]; simpl.
  - apply includes_startsWith, startsWith_app.
  - rewrite IH. apply orb_true_r.
Qed.

Lemma replaceLeadingAt_at s : replaceLeadingAt (js "@" ++ s) = s.
Proof. reflexivity. Qed.

End JSFacts.

(** ** lib/exa.ts: each field of the accumulator evolves on its own *)

Module ExaFacts.
Import Exa ExaFields JSFacts.

Ltac field_cases :=
  repeat match goal with
         | |- context [if ?b then _ else _] => destruct b
         | |- context [match ?o with Some _ => _ | None => _ end] => destruct o
         | |- context [match ?l with [] => _ | _ :: _ => _ end] => destruct l
         end; simpl; try reflexivity.

Lemma processChunk_image p c :
  profileImageUrl (processChunk p c) = imageStep (profileImageUrl p) c.
Proof.
  unfold processChunk, setBio, setName, setImage, pushTweet, imageStep.
  destruct (nonEmpty (text c) && nonEmpty (trim (text c))); simpl;
    destruct (negb (truthyStr (profileImageUrl p)) && truthyStr (chunkImageUrl c));
    simpl; field_cases.
Qed.

Lemma processChunk_name p c :
  name (processChunk p c) = nameStep (name p) c.
Proof.
  unfold processChunk, setBio, setName, setImage, pushTweet, nameStep, titleName.
  destruct (nonEmpty (text c) && nonEmpty (trim (text c))); simpl;
    destruct (negb (truthyStr (profileImageUrl p)) && truthyStr (chunkImageUrl c));
    simpl;
    destruct (truthyStr (name p)); simpl;
    destruct (chunkTitle c) as [t|]; simpl; try solve [field_cases];
    destruct (nonEmpty t); simpl; try solve [field_cases];
    destruct (matchBeforeParen t) as [g|]; simpl; try solve [field_cases];
    destruct (nonEmpty g); simpl; field_cases.
Qed.

Lemma processChunk_bio p c :
  bio (processChunk p c) = bioStep (bio p) c.
Proof.
  unfold processChunk, setBio, bioStep, qualifyingLines.
  assert (Hb : forall q, bio (setName q c) = bio q).
  { intros q. unfold setName. field_cases. }
  assert (Hi : forall q, bio (setImage q c) = bio q).
  { intros q. unfold setImage. field_cases. }
  assert (Ht : forall q, bio (pushTweet q c) = bio q).
  { intros q. unfold pushTweet. field_cases. }
  rewrite Hb, Hi, Ht.
  destruct (truthyStr (bio p)); simpl.
  - rewrite Hb, Hi, Ht. reflexivity.
  - destruct (includes (url c) (js "/status/")); simpl.
    + rewrite Hb, Hi, Ht. reflexivity.
    + destruct (bioLines c); simpl; [rewrite Hb, Hi, Ht|]; reflexivity.
Qed.

Lemma fold_image cs : forall p,
  profileImageUrl (fold_left processChunk cs p)
  = fold_left imageStep cs (profileImageUrl p).
Proof.
  induction cs as [|c cs IH]; intros p; simpl; [reflexivity|].
  rewrite IH, processChunk_image. reflexivity.
Qed.

Lemma fold_name cs : forall p,
  name (fold_left processChunk cs p) = fold_left nameStep cs (name p).
Proof.
  induction cs as [|c cs IH]; intros p; simpl; [reflexivity|].
  rewrite IH, processChunk_name. reflexivity.
Qed.

Lemma fold_bio cs : forall p,
  bio (fold_left processChunk cs p) = fold_left bioStep cs (bio p).
Proof.
  induction cs as [|c cs IH]; intros p; simpl; [reflexivity|].
  rewrite IH, processChunk_bio. reflexivity.
Qed.

End ExaFacts.

(** ** lib/exa.ts: the heuristics of [extractProfileInfo] *)

Module ExaSpec.
Import Exa ExaFields ExaFacts JSFacts Samples.

Lemma bioLineOk_nonEmpty line : bioLineOk line = true -> nonEmpty line = true.
Proof.
  unfold bioLineOk. intros H.
  repeat (apply andb_prop in H as [H _]).
  destruct line; [discriminate | reflexivity].
Qed.

Lemma qualifyingLines_spec c line :
  In line (qualifyingLines c) <->
  includes (url c) (js "/status/") = false
  /\ In line (map trim (split 10 (text c)))
  /\ bioLineOk line = true.
Proof.
  unfold qualifyingLines, bioLines.
  destruct (includes (url c) (js "/status/")).
  - split; [intros [] | intros [H _]; discriminate].
  - rewrite filter_In. tauto.
Qed.

Lemma qualifyingLines_nonEmpty c line :
  In line (qualifyingLines c) -> nonEmpty line = true.
Proof.
  intros H. apply qualifyingLines_spec in H as (_ & _ & H).
  apply bioLineOk_nonEmpty, H.
Qed.

Lemma fold_bioStep cs : forall b,
  fold_left bioStep cs b =
  if truthyStr b then b
  else match hd_error (flat_map qualifyingLines cs) with
       | Some line => Some line
       | None => b
       end.
Proof.
  induction cs as [|c cs IH]; intros b; simpl.
  - destruct (truthyStr b); reflexivity.
  - rewrite IH. unfold bioStep.
    destruct (truthyStr b) eqn:Hb; simpl.
    + rewrite Hb. reflexivity.
    + destruct (qualifyingLines c) as [|line rest] eqn:Hq; simpl.
      * rewrite Hb. reflexivity.
      * assert (Hl : nonEmpty line = true).
        { apply (qualifyingLines_nonEmpty c). rewrite Hq. left. reflexivity. }
        rewrite Hl. reflexivity.
Qed.

Lemma fold_imageStep_locked cs : forall image,
  truthyStr image = true -> fold_left imageStep cs image = image.
Proof.
  induction cs as [|c cs IH]; intros image H; simpl; [reflexivity|].
  unfold imageStep at 2. rewrite H. simpl. apply IH, H.
Qed.

Lemma fold_imageStep_skip pre : forall image,
  forallb (fun c => negb (exposesImage c)) pre = true ->
  fold_left imageStep pre image = image.
Proof.
  induction pre as [|c pre IH]; intros image H; simpl in *; [reflexivity|].
  apply andb_prop in H as [Hc Hpre].
  unfold imageStep at 2. unfold exposesImage in Hc.
  apply negb_true_iff in Hc. rewrite Hc, andb_false_r. apply IH, Hpre.
Qed.

Lemma fold_nameStep_locked cs : forall n,
  truthyStr n = true -> fold_left nameStep cs n = n.
Proof.
  induction cs as [|c cs IH]; intros n H; simpl; [reflexivity|].
  unfold nameStep at 2. rewrite H. simpl. apply IH, H.
Qed.

Lemma fold_nameStep_skip pre :
  forallb (fun c => negb (offersName c)) pre = true ->
  truthyStr (fold_left nameStep pre None) = false.
Proof.
  intros H.
  assert (G : forall n, truthyStr n = false ->
                        truthyStr (fold_left nameStep pre n) = false).
  { induction pre as [|c pre IH]; intros n Hn; simpl in *; [exact Hn|].
    apply andb_prop in H as [Hc Hpre].
    apply IH; [exact Hpre|].
    unfold nameStep. rewrite Hn. simpl.
    unfold offersName in Hc. apply negb_true_iff in Hc.
    destruct (titleName c); [exact Hc | exact Hn]. }
  apply G. reflexivity.
Qed.

(** C1 (as the code has it).  The bio is the first line, in chunk order,
    among the trimmed lines of the chunks whose URL does not contain
    "/status/", that is longer than 10 code units, contains none of
    "Followers", "Following", "Posts" and does not start with "@" (all
    tested after trimming); there is no bio when no such line exists, and
    a bio that is set is never replaced by a later chunk. *)
Theorem bio_is_first_trimmed_qualifying_line (searchResult : ExaSearchResult) :
  bio (extractProfileInfo searchResult)
  = hd_error (flat_map qualifyingLines (chunks searchResult))
  /\ (forall c line,
        In line (qualifyingLines c) <->
        includes (url c) (js "/status/") = false
        /\ In line (map trim (split 10 (text c)))
        /\ bioLineOk line = true)
  /\ (forall p c, truthyStr (bio p) = true -> bio (processChunk p c) = bio p).
Proof.
  split; [|split].
  - unfold extractProfileInfo. rewrite fold_bio, fold_bioStep. simpl.
    destruct (hd_error (flat_map qualifyingLines (chunks searchResult)));
      reflexivity.
  - exact qualifyingLines_spec.
  - intros p c H. rewrite processChunk_bio. unfold bioStep. rewrite H.
    reflexivity.
Qed.

(** C1 (as stated) fails: for an indented profile line the claim makes
    the bio the line as split, the code makes it the trimmed line. *)
Lemma bio_is_not_the_untrimmed_line :
  bio (extractProfileInfo indentedBio) = Some (js "Loves hiking and open source.")
  /\ firstUntrimmedQualifyingLine (chunks indentedBio)
     = Some (js "  Loves hiking and open source.")
  /\ bio (extractProfileInfo indentedBio)
     <> firstUntrimmedQualifyingLine (chunks indentedBio).
Proof.
  split; [vm_compute; reflexivity|].
  split; [vm_compute; reflexivity|].
  vm_compute. discriminate.
Qed.

(** The example of the specification: the "Followers" line is skipped
    and the later line does not replace the bio. *)
Example bio_of_followersThenBio :
  bio (extractProfileInfo followersThenBio)
  = Some (js "Loves hiking and open source.").
Proof. vm_compute. reflexivity. Qed.

(** C5.  When some chunk exposes an image URL, the profile image is the
    image URL of the first such chunk in processing order; a profile
    image that is set is kept by every later chunk. *)
Theorem profile_image_is_first_exposed
    (searchResult : ExaSearchResult) (pre post : list ExaChunk) (c : ExaChunk) :
  chunks searchResult = pre ++ c :: post ->
  forallb (fun c' => negb (exposesImage c')) pre = true ->
  exposesImage c = true ->
  profileImageUrl (extractProfileInfo searchResult) = chunkImageUrl c
  /\ (forall p c', truthyStr (profileImageUrl p) = true ->
                   profileImageUrl (processChunk p c') = profileImageUrl p).
Proof.
  intros Hcs Hpre Hc. split.
  - unfold extractProfileInfo. rewrite Hcs, fold_image, fold_left_app. simpl.
    rewrite (fold_imageStep_skip pre None Hpre).
    unfold imageStep at 2. unfold exposesImage in Hc. rewrite Hc. simpl.
    apply fold_imageStep_locked, Hc.
  - intros p c' H. rewrite processChunk_image. unfold imageStep. rewrite H.
    reflexivity.
Qed.

Lemma profile_image_is_first_exposed_witness :
  profileImageUrl (extractProfileInfo twoImages)
  = Some (js "https://pbs.twimg.com/a.jpg").
Proof.
  apply (profile_image_is_first_exposed twoImages
           [plainChunk "hello world" "https://x.com/jdoe/status/1"]
           [imageChunk "second" "https://x.com/jdoe" "https://pbs.twimg.com/b.jpg"]
           (imageChunk "first" "https://x.com/jdoe" "https://pbs.twimg.com/a.jpg"));
    reflexivity.
Defined.

(** C9 (as the code has it).  The display name is set by the first chunk,
    in processing order, whose title has a prefix before its first "("
    (the whole title when it has none) that is not empty after trimming;
    the name is that prefix, trimmed, and a later chunk does not replace
    a non-empty name. *)
Theorem name_is_first_nonblank_title_prefix
    (searchResult : ExaSearchResult) (pre post : list ExaChunk) (c : ExaChunk)
    (n : jsstring) :
  chunks searchResult = pre ++ c :: post ->
  forallb (fun c' => negb (offersName c')) pre = true ->
  titleName c = Some n ->
  nonEmpty n = true ->
  name (extractProfileInfo searchResult) = Some n
  /\ (forall p c', truthyStr (name p) = true ->
                   name (processChunk p c') = name p).
Proof.
  intros Hcs Hpre Hc Hn. split.
  - unfold extractProfileInfo. rewrite Hcs, fold_name, fold_left_app. simpl.
    pose proof (fold_nameStep_skip pre Hpre) as Hskip.
    unfold nameStep at 2. rewrite Hskip, Hc. simpl.
    apply fold_nameStep_locked. exact Hn.
  - intros p c' H. rewrite processChunk_name. unfold nameStep. rewrite H.
    reflexivity.
Qed.

Lemma name_is_first_nonblank_title_prefix_witness :
  name (extractProfileInfo twoNames) = Some (js "Jane Doe").
Proof.
  apply (name_is_first_nonblank_title_prefix twoNames
           [plainChunk "hello world" "https://x.com/jdoe/status/1"]
           [titledChunk "two" "https://x.com/jdoe" "John Roe (@jroe) / X"]
           (titledChunk "one" "https://x.com/jdoe" "Jane Doe (@jdoe) / X"));
    reflexivity.
Defined.

(** C9 (as stated) fails: the first chunk whose title matches the
    pattern has only blanks before its parenthesis; it sets the empty
    name, and the next chunk replaces it. *)
Lemma blank_title_name_is_replaced :
  firstTitleName (chunks blankThenNamed) = Some []
  /\ name (extractProfileInfo blankThenNamed) = Some (js "Jane Doe")
  /\ name (extractProfileInfo blankThenNamed)
     <> firstTitleName (chunks blankThenNamed).
Proof.
  split; [vm_compute; reflexivity|].
  split; [vm_compute; reflexivity|].
  vm_compute. discriminate.
Qed.

End ExaSpec.

(** ** lib/exa.ts: the search query *)

Module QuerySpec.
Import Exa JSFacts Views Samples.

Lemma searchXProfile_queries w this xHandle :
  outboundQueries (fst (searchXProfile w this xHandle))
  = if truthyStr (apiKey this) then [ searchQuery xHandle ] else [].
Proof.
  unfold searchXProfile, validateApiKey.
  destruct (truthyStr (apiKey this)); simpl.
  - destruct (axios_post w (searchRequest this xHandle)); reflexivity.
  - reflexivity.
Qed.

(** C6.  A leading "@" is stripped from the handle: for every handle
    "@" followed by s the cleaned handle is s, the query is
    "site:twitter.com @s OR from:s", this is the query of the one
    outbound search request, and the persona route cleans the handle the
    same way; "@jdoe" is cleaned to "jdoe" and its query contains
    "from:jdoe". *)
Theorem clean_handle_strips_leading_at :
  (forall s, cleanHandle (js "@" ++ s) = s)
  /\ (forall s, searchQuery (js "@" ++ s)
                = js "site:twitter.com @" ++ s ++ js " OR from:" ++ s)
  /\ (forall w this s,
        outboundQueries (fst (searchXProfile w this (js "@" ++ s)))
        = if truthyStr (apiKey this)
          then [ js "site:twitter.com @" ++ s ++ js " OR from:" ++ s ]
          else [])
  /\ (forall s, PersonaRoute.replaceOf (VString (js "@" ++ s)) = ret s)
  /\ cleanHandle (js "@jdoe") = js "jdoe"
  /\ searchQuery (js "@jdoe") = js "site:twitter.com @jdoe OR from:jdoe"
  /\ includes (searchQuery (js "@jdoe")) (js "from:jdoe") = true.
Proof.
  repeat split; try reflexivity.
  intros w this s. rewrite searchXProfile_queries. reflexivity.
Qed.

End QuerySpec.

(** ** lib/openai.ts and the prompt templates *)

Module PersonaSpec.
Import OpenAI JSFacts Views Samples.

Lemma prototype_has_no_name : objectPrototypeProperty (js "name") = None.
Proof. reflexivity. Qed.

Lemma prototype_has_no_traits : objectPrototypeProperty (js "traits") = None.
Proof. reflexivity. Qed.

Lemma prototype_has_no_interests : objectPrototypeProperty (js "interests") = None.
Proof. reflexivity. Qed.

Lemma invalidFormat_missing props k :
  In k [ js "name"; js "traits"; js "interests" ] ->
  ownProperty props k = None ->
  invalidFormat (VObject props) = Ok true.
Proof.
  intros Hk Hown. unfold invalidFormat, getProperty, getObjectProperty.
  rewrite prototype_has_no_name, prototype_has_no_traits,
    prototype_has_no_interests.
  destruct Hk as [<-|[<-|[<-|[]]]]; rewrite Hown; simpl.
  - reflexivity.
  - destruct (truthy _); reflexivity.
  - destruct (truthy _); simpl; [|reflexivity].
    destruct (truthy _); reflexivity.
Qed.

(** Every exception of [generatePersona] is the one generic failure. *)
Lemma generatePersona_throws_only_GenerationFailure w this context e :
  snd (generatePersona w this context) = Throw e -> e = GenerationFailure.
Proof.
  unfold generatePersona, tryCatch.
  match goal with |- context [match ?m with _ => _ end] => destruct m as [t [v|e']] end;
    simpl; intros H; [discriminate | inversion H; reflexivity].
Qed.

(** C3.  When the reply of the model parses to a JSON object that lacks
    one of name, traits, interests, [generatePersona] throws the generic
    generation failure: no persona is returned. *)
Theorem generatePersona_rejects_missing_field
    (w : World) (this : OpenAIClient) (context : PersonaGenerationContext)
    (response : ChatCompletion) (reply : jsstring)
    (props : list (jsstring * Value)) (k : jsstring) :
  chat_completions_create w (chatRequest context) = Ok response ->
  firstContent response = Some reply ->
  JSON_parse w reply = Ok (VObject props) ->
  In k [ js "name"; js "traits"; js "interests" ] ->
  ownProperty props k = None ->
  snd (generatePersona w this context) = Throw GenerationFailure.
Proof.
  intros Hchat Hreply Hparse Hk Hown.
  unfold generatePersona.
  destruct (initializeClient this) as [[this' sdk]|e]; simpl; [|reflexivity].
  rewrite Hchat. simpl. rewrite Hreply.
  destruct (nonEmpty reply); simpl; [|reflexivity].
  rewrite Hparse. simpl.
  rewrite (invalidFormat_missing props k Hk Hown). reflexivity.
Qed.

Lemma generatePersona_rejects_missing_field_witness :
  snd (generatePersona quietWorld (newOpenAIClient quietWorld None) someContext)
  = Throw GenerationFailure.
Proof.
  apply (generatePersona_rejects_missing_field quietWorld
           (newOpenAIClient quietWorld None) someContext
           {| choices := [ {| message := Some {| content := Some nameOnlyReply |} |} ] |}
           nameOnlyReply
           [ (js "name", VString (js "Jane")) ]
           (js "traits")).
  - reflexivity.
  - reflexivity.
  - reflexivity.
  - simpl. right. left. reflexivity.
  - reflexivity.
Defined.

Lemma join_cons_app sep x y l :
  join sep (x :: y :: l) = x ++ sep ++ join sep (y :: l).
Proof. reflexivity. Qed.

Lemma bioPart_includes b :
  nonEmpty b = true -> exists rest, bioPart (Some b) = (js "Bio: " ++ b) ++ rest.
Proof.
  intros H. unfold bioPart. rewrite H. exists (nl ++ nl).
  rewrite <- app_assoc. reflexivity.
Qed.

(** The one chat request of [generatePersona] carries the system prompt
    and the user message of the context. *)
Lemma generatePersona_requests w this context :
  chatRequests (fst (generatePersona w this context))
  = match initializeClient this with
    | Ok _ => [ chatRequest context ]
    | Throw _ => []
    end.
Proof.
  unfold generatePersona.
  destruct (initializeClient this) as [[this' sdk]|e]; simpl; [|reflexivity].
  destruct (chat_completions_create w (chatRequest context)) as [response|e];
    simpl; [|reflexivity].
  destruct (firstContent response) as [reply|]; simpl; [|reflexivity].
  destruct (nonEmpty reply); simpl; [|reflexivity].
  destruct (JSON_parse w reply) as [personaData|e]; simpl; [|reflexivity].
  destruct (invalidFormat personaData) as [[|]|e]; reflexivity.
Qed.

(** C8.  Each of the two user prompts is a text fixed by the bio (and the
    profile description) around the bulleted list of the first ten tweet
    snippets in their order: no other part of the prompt depends on the
    tweets, at most ten are listed, and a non-empty bio is embedded after
    "Bio: "; every chat request of [generatePersona] has this text as its
    user message. *)
Theorem user_prompt_embeds_first_ten_tweets (bio description : option jsstring) :
  exists header footer header' footer',
    (forall tweets,
        userMessage (withTweets tweets bio description)
        = header ++ bulleted (firstn 10 tweets) ++ footer)
    /\ (forall tweets,
        PromptEngineer.createPersonaUserPrompt (withTweets tweets bio description)
        = header' ++ bulleted (firstn 10 tweets) ++ footer')
    /\ (forall b, bio = Some b -> nonEmpty b = true ->
                  includes header (js "Bio: " ++ b) = true
                  /\ includes header' (js "Bio: " ++ b) = true)
    /\ (forall tweets : list jsstring, List.length (firstn 10 tweets) <= 10)
    /\ (forall w this tweets,
          map messages
            (chatRequests
               (fst (generatePersona w this (withTweets tweets bio description))))
          = match initializeClient this with
            | Ok _ => [ [ (system, systemPrompt);
                          (user, header ++ bulleted (firstn 10 tweets) ++ footer) ] ]
            | Throw _ => []
            end).
Proof.
  exists (unlines [ [];
                    js "        Here's information from an X (Twitter) user's profile:";
                    js "        " ]
          ++ nl ++ js "        " ++ bioPart bio
          ++ nl ++ unlines [ js "        "; js "        Recent posts:" ]
          ++ nl ++ js "        ").
  exists (nl ++ unlines [ js "        ";
                          js "        Based on this information, create a persona for this user.";
                          js "      " ]).
  exists (unlines [ [];
                    js "      Here's information from an X (Twitter) user's profile:";
                    js "      " ]
          ++ nl ++ js "      " ++ PromptEngineer.bioPart bio
          ++ nl ++ js "      " ++ PromptEngineer.descriptionPart description
          ++ nl ++ unlines [ js "      "; js "      Recent posts:" ]
          ++ nl ++ js "      ").
  exists (nl ++ unlines [ js "      ";
                          js "      Based on this information, create a persona for this user following the format in your instructions.";
                          js "      Focus especially on traits and interests that might influence what locations they would enjoy visiting.";
                          js "    " ]).
  assert (Huser : forall tweets,
             userMessage (withTweets tweets bio description)
             = (unlines [ [];
                          js "        Here's information from an X (Twitter) user's profile:";
                          js "        " ]
                ++ nl ++ js "        " ++ bioPart bio
                ++ nl ++ unlines [ js "        "; js "        Recent posts:" ]
                ++ nl ++ js "        ")
               ++ bulleted (firstn 10 tweets)
               ++ nl ++ unlines [ js "        ";
                                  js "        Based on this information, create a persona for this user.";
                                  js "      " ]).
  { intros tweets.
    unfold userMessage, withTweets, unlines, tweetList, bulleted, slice0.
    cbn [recentTweets contextBio profileDescription].
    repeat rewrite join_cons_app.
    repeat rewrite <- app_assoc. reflexivity. }
  split; [|split; [|split; [|split]]].
  - exact Huser.
  - intros tweets.
    unfold PromptEngineer.createPersonaUserPrompt, withTweets, unlines,
      PromptEngineer.tweetList, bulleted, slice0.
    cbn [recentTweets contextBio profileDescription].
    repeat rewrite join_cons_app.
    repeat rewrite <- app_assoc. reflexivity.
  - intros b -> Hb.
    destruct (bioPart_includes b Hb) as [rest Hrest].
    split.
    + rewrite Hrest.
      repeat rewrite <- app_assoc.
      rewrite (app_assoc (unlines _)), (app_assoc (_ ++ nl)).
      rewrite (app_assoc (js "Bio: ")).
      apply includes_app.
    + change (PromptEngineer.bioPart (Some b)) with (bioPart (Some b)).
      rewrite Hrest.
      repeat rewrite <- app_assoc.
      rewrite (app_assoc (unlines _)), (app_assoc (_ ++ nl)).
      rewrite (app_assoc (js "Bio: ")).
      apply includes_app.
  - intros tweets. apply firstn_le_length.
  - intros w this tweets. rewrite generatePersona_requests.
    destruct (initializeClient this); [|reflexivity].
    unfold chatRequest. cbn [map messages]. rewrite Huser. reflexivity.
Qed.

(** Twelve tweets: the tenth is in both prompts, the eleventh and the
    twelfth are not, and the bio is. *)
Example user_prompt_of_twelve_tweets :
  includes (userMessage twelveTweetContext) (bullet ++ js "post 10") = true
  /\ includes (userMessage twelveTweetContext) (js "post 11") = false
  /\ includes (userMessage twelveTweetContext) (js "post 12") = false
  /\ includes (userMessage twelveTweetContext)
       (js "Bio: Loves hiking and open source.") = true
  /\ includes (PromptEngineer.createPersonaUserPrompt twelveTweetContext)
       (bullet ++ js "post 10") = true
  /\ includes (PromptEngineer.createPersonaUserPrompt twelveTweetContext)
       (js "post 11") = false.
Proof. repeat split; vm_compute; reflexivity. Qed.

End PersonaSpec.

(** ** The route handlers *)

Module RouteSpec.
Import JSFacts Views Samples.

Lemma missing_persona_is_falsy props :
  ownProperty props (js "persona") = None ->
  truthy (getObjectProperty props (js "persona")) = false.
Proof.
  intros H. unfold getObjectProperty. rewrite H. reflexivity.
Qed.

Lemma missing_location_is_falsy props :
  ownProperty props (js "location") = None ->
  truthy (getObjectProperty props (js "location")) = false.
Proof.
  intros H. unfold getObjectProperty. rewrite H. reflexivity.
Qed.

(** C7.  For a request body that is a JSON object: when persona and
    location are present (truthy) and the recommender returns the empty
    list, the locations endpoint answers 404 with success false; when
    persona or location is missing (or otherwise falsy) it answers 400
    with success false, and the recommender is not called. *)
Theorem locations_endpoint_404_on_empty_400_on_missing
    (w : World) (props : list (jsstring * Value)) :
  let persona := getObjectProperty props (js "persona") in
  let location := getObjectProperty props (js "location") in
  let run := LocationsRoute.POST w (Ok (VObject props)) in
  (truthy persona = true -> truthy location = true ->
   findRecommendedLocations w persona location = Ok [] ->
   exists r, snd run = Ok r /\ status r = 404%N /\ success (body r) = false)
  /\ (ownProperty props (js "persona") = None
      \/ ownProperty props (js "location") = None
      \/ truthy persona = false \/ truthy location = false ->
      exists r, run = ([], Ok r) /\ status r = 400%N /\ success (body r) = false).
Proof.
  intros persona location run. split.
  - intros Hp Hl Hfind.
    exists (failure "No suitable locations found. Please try a different location or X profile." 404).
    split; [|split; reflexivity].
    unfold run, LocationsRoute.POST. simpl.
    fold persona location. rewrite Hp, Hl. simpl.
    rewrite Hfind. reflexivity.
  - intros H.
    assert (Hf : negb (truthy persona) || negb (truthy location) = true).
    { destruct H as [H|[H|[H|H]]].
      - unfold persona. rewrite (missing_persona_is_falsy props H). reflexivity.
      - unfold location. rewrite (missing_location_is_falsy props H).
        apply orb_true_r.
      - rewrite H. reflexivity.
      - rewrite H. apply orb_true_r. }
    exists (failure "Invalid request. Please provide both persona and location." 400).
    split; [|split; reflexivity].
    unfold run, LocationsRoute.POST. simpl.
    fold persona location. rewrite Hf. reflexivity.
Qed.

Lemma locations_endpoint_404_on_empty_400_on_missing_witness :
  (exists r, snd (LocationsRoute.POST quietWorld (Ok (VObject locationsBody))) = Ok r
             /\ status r = 404%N /\ success (body r) = false)
  /\ (exists r, LocationsRoute.POST quietWorld (Ok (VObject cityOnlyBody)) = ([], Ok r)
                /\ status r = 400%N /\ success (body r) = false).
Proof.
  split.
  - apply (locations_endpoint_404_on_empty_400_on_missing quietWorld locationsBody);
      reflexivity.
  - apply (locations_endpoint_404_on_empty_400_on_missing quietWorld cityOnlyBody).
    left. reflexivity.
Defined.

(** *** The persona endpoint *)

Lemma fold_tweets cs : forall p,
  Exa.tweets (fold_left Exa.processChunk cs p)
  = Exa.tweets p ++ flat_map snippets cs.
Proof.
  induction cs as [|c cs IH]; intros p; simpl.
  - rewrite app_nil_r. reflexivity.
  - rewrite IH.
    assert (Ht : Exa.tweets (Exa.processChunk p c) = Exa.tweets p ++ snippets c).
    { unfold Exa.processChunk, Exa.setBio, Exa.setName, Exa.setImage,
        Exa.pushTweet, snippets.
      destruct (nonEmpty (text c) && nonEmpty (trim (text c))); simpl;
        rewrite ?app_nil_r; ExaFacts.field_cases. }
    rewrite Ht, <- app_assoc. reflexivity.
Qed.

(** No chunk with non-empty trimmed text: no tweets. *)
Lemma no_text_no_tweets searchResult :
  forallb (fun c => negb (nonEmpty (trim (text c)))) (chunks searchResult) = true ->
  Exa.tweets (Exa.extractProfileInfo searchResult) = [].
Proof.
  unfold Exa.extractProfileInfo. rewrite fold_tweets. simpl.
  induction (chunks searchResult) as [|c cs IH]; simpl; [reflexivity|].
  intros H. apply andb_prop in H as [Hc Hcs].
  apply negb_true_iff in Hc. unfold snippets at 1.
  rewrite Hc, andb_false_r. simpl. apply IH, Hcs.
Qed.

(** The handler as it is bound: [exaClient] is the factory function, the
    read of [exaClient.searchXProfile] gives [undefined], the call throws
    and the catch clause answers 500, whatever the search would find. *)
Lemma persona_POST_answers_500 w props s :
  getObjectProperty props (js "xHandle") = VString s ->
  nonEmpty s = true ->
  PersonaRoute.POST w (Ok (VObject props))
  = ([ ConsoleError "Error generating persona:"
         (TypeError "binding.method is not a function") ],
     Ok (failure "Failed to generate persona. Please try again later." 500)).
Proof.
  intros Hx Hs. unfold PersonaRoute.POST, PersonaRoute.handle. simpl.
  rewrite Hx. simpl. rewrite Hs. reflexivity.
Qed.

(** The same handler over client instances: with no text-bearing chunk
    it answers 404 after the search, and no chat request is made. *)
Lemma persona_handle_over_instances_404 w exa openai props s searchResult :
  getObjectProperty props (js "xHandle") = VString s ->
  nonEmpty s = true ->
  truthyStr (Exa.apiKey exa) = true ->
  axios_post w (Exa.searchRequest exa (replaceLeadingAt s)) = Ok searchResult ->
  forallb (fun c => negb (nonEmpty (trim (text c)))) (chunks searchResult) = true ->
  PersonaRoute.handle (Instance exa) (Instance openai) w (Ok (VObject props))
  = ([ ExaSearch (Exa.searchRequest exa (replaceLeadingAt s)) ],
     Ok (failure "Could not find X profile data. Please check the handle and try again." 404)).
Proof.
  intros Hx Hs Hkey Hpost Hchunks.
  unfold PersonaRoute.handle. simpl. rewrite Hx. simpl. rewrite Hs. simpl.
  unfold Exa.searchXProfile, Exa.validateApiKey. rewrite Hkey. simpl.
  rewrite Hpost. simpl.
  rewrite (no_text_no_tweets searchResult Hchunks). reflexivity.
Qed.

(** C4 at a request for handle "jdoe" whose search finds no chunk: the
    endpoint answers 500, not 404; no search and no chat request is
    made. *)
Theorem persona_endpoint_empty_search_answers_500 :
  exists trace r,
    PersonaRoute.POST quietWorld (Ok (VObject handleBody)) = (trace, Ok r)
    /\ status r = 500%N /\ success (body r) = false
    /\ outboundQueries trace = [] /\ chatRequests trace = []
    /\ Exa.tweets (Exa.extractProfileInfo (resultOf [])) = [].
Proof.
  eexists. eexists. split.
  - apply (persona_POST_answers_500 quietWorld handleBody (js "jdoe")); reflexivity.
  - repeat split; reflexivity.
Qed.

End RouteSpec.

(** ** components/LocationMap.tsx: the centre of the map *)

Module MapSpec.
Import LocationMap Samples.

Section AnyBounds.
Context {api : LatLngBoundsAPI}.

(** The state is never null: the branch that computes the centre of the
    bounds needs [!mapCenter] and is never taken. *)
Lemma centerEffect_keeps_some props c :
  exists c', centerEffect props (Some c) = Some c'
             /\ (centerCoordinates props = None -> c' = c).
Proof.
  unfold centerEffect. simpl. rewrite andb_false_r.
  destruct (centerCoordinates props) as [c0|].
  - exists c0. split; [reflexivity | discriminate].
  - exists c. split; reflexivity.
Qed.

Lemma mapCenter_fold renders : forall c,
  forallb (fun props => isNone (centerCoordinates props)) renders = true ->
  fold_left (fun mapCenter props => centerEffect props mapCenter) renders (Some c)
  = Some c.
Proof.
  induction renders as [|props renders IH]; intros c H; simpl in *; [reflexivity|].
  apply andb_prop in H as [Hp Hr].
  destruct (centerEffect_keeps_some props c) as (c' & -> & Hc').
  destruct (centerCoordinates props); [discriminate|].
  rewrite (Hc' eq_refl). apply IH, Hr.
Qed.

(** Without an explicit centre the state stays at the initial Toronto
    coordinate, whatever the locations are. *)
Lemma mapCenter_stays_toronto renders :
  forallb (fun props => isNone (centerCoordinates props)) renders = true ->
  mapCenterAfter renders = Some toronto.
Proof. apply mapCenter_fold. Qed.

End AnyBounds.

Lemma paris_is_not_toronto : paris <> toronto.
Proof.
  intros H. apply (f_equal lat) in H.
  apply (f_equal (fun x => PrimFloat.eqb x 48.8566)) in H.
  vm_compute in H. discriminate.
Qed.

(** One location in Paris and no explicit centre: the centre of the
    bounds is the Paris coordinate, the state and the [center] property
    stay at Toronto after every render. *)
Theorem map_center_stays_toronto_for_paris :
  boundsCenter (api := boxBounds) (locations parisProps) = paris
  /\ mapCenterAfter (api := boxBounds) [ parisProps ] = Some toronto
  /\ mapCenterAfter (api := boxBounds) [ parisProps; parisProps ] = Some toronto
  /\ centerProp (mapCenterAfter (api := boxBounds) [ parisProps ]) = toronto
  /\ paris <> toronto.
Proof.
  split; [vm_compute; reflexivity|].
  split; [apply (mapCenter_stays_toronto (api := boxBounds)); reflexivity|].
  split; [apply (mapCenter_stays_toronto (api := boxBounds)); reflexivity|].
  split; [rewrite (mapCenter_stays_toronto (api := boxBounds)); reflexivity|].
  exact paris_is_not_toronto.
Qed.

End MapSpec.

(** ** The category tables of the list and the map *)

Module CategorySpec.
Import JSFacts Views Samples.

Lemma own_glyphs_truthy k v :
  ownProperty LocationList.categories k = Some v -> truthy v = true.
Proof.
  unfold LocationList.categories. simpl.
  repeat match goal with
         | |- context [if ?b then _ else _] => destruct b
         end;
    intros H; inversion H; reflexivity.
Qed.

Lemma own_colors_truthy k v :
  ownProperty LocationMap.colors k = Some v -> truthy v = true.
Proof.
  unfold LocationMap.colors. simpl.
  repeat match goal with
         | |- context [if ?b then _ else _] => destruct b
         end;
    intros H; inversion H; reflexivity.
Qed.

(** A category of the table gets its glyph and its colour. *)
Lemma known_category w category glyph :
  ownProperty LocationList.categories (toLowerCase w category) = Some glyph ->
  LocationList.getCategoryEmoji w category = glyph.
Proof.
  intros H. unfold LocationList.getCategoryEmoji, getObjectProperty, orElse.
  rewrite H, (own_glyphs_truthy _ _ H). reflexivity.
Qed.

(** A category that is neither a key of the table nor a property of
    [Object.prototype] gets the default glyph and the default colour. *)
Lemma unknown_category_defaults w category :
  ownProperty LocationList.categories (toLowerCase w category) = None ->
  ownProperty LocationMap.colors (toLowerCase w category) = None ->
  objectPrototypeProperty (toLowerCase w category) = None ->
  LocationList.getCategoryEmoji w category = pin
  /\ LocationMap.categoryColor w category = grey.
Proof.
  intros He Hc Hp.
  unfold LocationList.getCategoryEmoji, LocationMap.categoryColor,
    getObjectProperty, orElse.
  rewrite He, Hc, Hp. split; reflexivity.
Qed.

(** C10 at the category "constructor" (and "__proto__"): the key is not
    in either table, yet the lookups give the built-ins inherited from
    [Object.prototype], not the default glyph and colour. *)
Theorem inherited_keys_escape_the_default :
  ownProperty LocationList.categories (js "constructor") = None
  /\ ownProperty LocationMap.colors (js "constructor") = None
  /\ LocationList.getCategoryEmoji quietWorld (js "constructor")
     = VNative ObjectConstructor
  /\ LocationMap.categoryColor quietWorld (js "constructor")
     = VNative ObjectConstructor
  /\ LocationList.getCategoryEmoji quietWorld (js "__proto__")
     = VNative ObjectPrototype
  /\ LocationList.getCategoryEmoji quietWorld (js "Constructor") <> pin
  /\ LocationMap.categoryColor quietWorld (js "Constructor") <> grey
  /\ LocationList.getCategoryEmoji quietWorld (js "Teahouse") = pin
  /\ LocationMap.categoryColor quietWorld (js "Teahouse") = grey.
Proof.
  repeat split; try (vm_compute; reflexivity); vm_compute; discriminate.
Qed.

(** The marker of the map for the category "constructor": its fill
    colour is the text of a built-in function, not a colour. *)
Example icon_of_constructor :
  LocationMap.getCategoryIcon None quietWorld (js "constructor") false
  = LocationMap.Symbol (Some (js "#function Object() { [native code] }"))
      0.9%float 2 (js "#FFFFFF") (28 / 10)%float
  /\ LocationMap.getCategoryIcon None quietWorld (js "Museum") true
     = LocationMap.Symbol (Some (js "#FFC107"))
         0.9%float 2 (js "#FFFFFF") (36 / 10)%float.
Proof. split; vm_compute; reflexivity. Qed.

End CategorySpec.

(** ** More on strings: [trim] *)

Module TrimFacts.
Import JSFacts Shapes.

Lemma dropWhile_startsClean p s :
  match dropWhile p s with [] => True | c :: _ => p c = false end.
Proof.
  induction s as [|c s IH]; simpl; [exact I|].
  destruct (p c) eqn:E; [exact IH | exact E].
Qed.

Lemma trimStart_startsClean s : startsClean (trimStart s) = true.
Proof.
  unfold trimStart, startsClean.
  pose proof (dropWhile_startsClean isWhiteSpace s) as H.
  destruct (dropWhile isWhiteSpace s); [reflexivity|].
  rewrite H. reflexivity.
Qed.

Lemma startsClean_fix s : startsClean s = true -> trimStart s = s.
Proof.
  destruct s as [|c r]; simpl; [reflexivity|].
  intros H. apply negb_true_iff in H. unfold trimStart. simpl.
  rewrite H. reflexivity.
Qed.

Lemma endsClean_snoc l c :
  isWhiteSpace c = false -> endsClean (l ++ [c]) = true.
Proof.
  intros H. induction l as [|x l IH]; simpl.
  - rewrite H. reflexivity.
  - destruct (l ++ [c]) eqn:E; [destruct l; discriminate | exact IH].
Qed.

Lemma trimEnd_endsClean s : endsClean (trimEnd s) = true.
Proof.
  unfold trimEnd.
  pose proof (dropWhile_startsClean isWhiteSpace (rev s)) as H.
  destruct (dropWhile isWhiteSpace (rev s)) as [|c r]; [reflexivity|].
  simpl. apply endsClean_snoc, H.
Qed.

Lemma dropWhile_app_keep p l m :
  l <> [] -> dropWhile p l = l -> dropWhile p (l ++ m) = l ++ m.
Proof.
  destruct l as [|c l]; [congruence|]. intros _. simpl.
  destruct (p c) eqn:E; [|reflexivity].
  intros H. exfalso.
  pose proof (f_equal (@List.length N) H) as Hlen. simpl in Hlen.
  assert (G : forall q, List.length (dropWhile p q) <= List.length q).
  { induction q as [|x q IH]; simpl; [lia|]. destruct (p x); simpl; lia. }
  specialize (G l). lia.
Qed.

Lemma endsClean_fix s : endsClean s = true -> trimEnd s = s.
Proof.
  unfold trimEnd. induction s as [|c r IH]; [reflexivity|].
  simpl. destruct r as [|d r'].
  - intros H. apply negb_true_iff in H. simpl. rewrite H. reflexivity.
  - intros H. specialize (IH H).
    assert (Hrev : dropWhile isWhiteSpace (rev (d :: r')) = rev (d :: r')).
    { rewrite <- (rev_involutive (dropWhile _ _)), IH. reflexivity. }
    rewrite dropWhile_app_keep.
    + rewrite rev_app_distr, rev_involutive. reflexivity.
    + simpl. destruct (rev r'); discriminate.
    + exact Hrev.
Qed.

Lemma dropWhile_snoc_keep p l c :
  p c = false -> exists l', dropWhile p (l ++ [c]) = l' ++ [c].
Proof.
  intros H. induction l as [|x l IH]; simpl.
  - rewrite H. exists []. reflexivity.
  - destruct (p x); [exact IH|]. exists (x :: l). reflexivity.
Qed.

Lemma trimEnd_keeps_start s :
  startsClean s = true -> startsClean (trimEnd s) = true.
Proof.
  destruct s as [|c r]; [reflexivity|]. simpl. intros H.
  apply negb_true_iff in H. unfold trimEnd. simpl.
  destruct (dropWhile_snoc_keep isWhiteSpace (rev r) c H) as [l' ->].
  rewrite rev_app_distr. simpl. rewrite H. reflexivity.
Qed.

Lemma trim_startsClean s : startsClean (trim s) = true.
Proof. apply trimEnd_keeps_start, trimStart_startsClean. Qed.

Lemma trim_endsClean s : endsClean (trim s) = true.
Proof. apply trimEnd_endsClean. Qed.

Lemma clean_trim_fix s :
  startsClean s = true -> endsClean s = true -> trim s = s.
Proof.
  intros Hs He. unfold trim. rewrite (startsClean_fix s Hs).
  apply endsClean_fix, He.
Qed.

Lemma trim_idempotent s : trim (trim s) = trim s.
Proof. apply clean_trim_fix; [apply trim_startsClean | apply trim_endsClean]. Qed.

Lemma dropWhile_Forall (P : N -> Prop) p s :
  Forall P s -> Forall P (dropWhile p s).
Proof.
  induction 1 as [|c s Hc Hs IH]; simpl; [constructor|].
  destruct (p c); [exact IH | constructor; assumption].
Qed.

Lemma trim_Forall (P : N -> Prop) s : Forall P s -> Forall P (trim s).
Proof.
  intros H. unfold trim, trimEnd, trimStart.
  apply Forall_rev, dropWhile_Forall, Forall_rev, dropWhile_Forall, H.
Qed.

Lemma takeWhile_Forall p s : Forall (fun c => p c = true) (takeWhile p s).
Proof.
  induction s as [|c s IH]; simpl; [constructor|].
  destruct (p c) eqn:E; constructor; assumption.
Qed.

Lemma filter_dropWhile_ws s :
  filter (fun c => negb (isWhiteSpace c)) (dropWhile isWhiteSpace s)
  = filter (fun c => negb (isWhiteSpace c)) s.
Proof.
  induction s as [|c s IH]; simpl; [reflexivity|].
  destruct (isWhiteSpace c) eqn:E; simpl; [exact IH | rewrite E; reflexivity].
Qed.

Lemma filter_trim_ws s :
  filter (fun c => negb (isWhiteSpace c)) (trim s)
  = filter (fun c => negb (isWhiteSpace c)) s.
Proof.
  unfold trim, trimEnd, trimStart.
  rewrite filter_rev, filter_dropWhile_ws, filter_rev, rev_involutive.
  apply filter_dropWhile_ws.
Qed.

End TrimFacts.

(** ** PromptEngineer.optimizePrompt *)

Module OptimizeSpec.
Import JSFacts Shapes TrimFacts PromptEngineer.

Lemma punctuation_is_not_white c : isPunctuation c = true -> isWhiteSpace c = false.
Proof.
  unfold isPunctuation. intros H.
  repeat (apply orb_prop in H as [H|H]);
    apply N.eqb_eq in H; subst c; reflexivity.
Qed.

Lemma collapse_cons_clean c r :
  isWhiteSpace c = false -> collapseWhiteSpace (c :: r) = c :: collapseWhiteSpace r.
Proof. intros H. simpl. rewrite H. reflexivity. Qed.

Lemma drop_cons_clean c r :
  isWhiteSpace c = false ->
  dropSpaceBeforePunctuation (c :: r) = c :: dropSpaceBeforePunctuation r.
Proof. intros H. simpl. rewrite H. reflexivity. Qed.

Lemma collapse_singleSpaced s :
  endsClean s = true -> singleSpaced (collapseWhiteSpace s) = true.
Proof.
  induction s as [|c r IH]; [reflexivity|].
  intros H. destruct r as [|d r'].
  - simpl in H. apply negb_true_iff in H. simpl. rewrite H. simpl.
    rewrite H. reflexivity.
  - assert (Hr : endsClean (d :: r') = true) by exact H.
    specialize (IH Hr).
    destruct (isWhiteSpace c) eqn:Hc.
    + change (collapseWhiteSpace (c :: d :: r'))
        with (if isWhiteSpace c
              then if isWhiteSpace d then collapseWhiteSpace (d :: r')
                   else 32%N :: collapseWhiteSpace (d :: r')
              else c :: collapseWhiteSpace (d :: r')).
      rewrite Hc. destruct (isWhiteSpace d) eqn:Hd; [exact IH|].
      rewrite (collapse_cons_clean d r' Hd) in *.
      simpl. simpl in IH. rewrite Hd in *. simpl. exact IH.
    + rewrite (collapse_cons_clean c _ Hc).
      change (singleSpaced (c :: collapseWhiteSpace (d :: r')))
        with (if isWhiteSpace c
              then N.eqb c 32
                   && match collapseWhiteSpace (d :: r') with
                      | x :: _ => negb (isWhiteSpace x)
                      | [] => false
                      end
                   && singleSpaced (collapseWhiteSpace (d :: r'))
              else singleSpaced (collapseWhiteSpace (d :: r'))).
      rewrite Hc. exact IH.
Qed.

Lemma collapse_startsClean s :
  startsClean s = true -> startsClean (collapseWhiteSpace s) = true.
Proof.
  destruct s as [|c r]; [reflexivity|]. simpl. intros H.
  apply negb_true_iff in H. rewrite H. simpl. rewrite H. reflexivity.
Qed.

Lemma drop_startsClean s :
  startsClean s = true -> startsClean (dropSpaceBeforePunctuation s) = true.
Proof.
  destruct s as [|c r]; [reflexivity|]. simpl. intros H.
  apply negb_true_iff in H. rewrite H. simpl. rewrite H. reflexivity.
Qed.

Lemma drop_spacedTidily s :
  singleSpaced s = true -> spacedTidily (dropSpaceBeforePunctuation s) = true.
Proof.
  induction s as [|c r IH]; [reflexivity|].
  intros H. simpl in H.
  destruct (isWhiteSpace c) eqn:Hc.
  - apply andb_prop in H as [H Hr]. apply andb_prop in H as [H32 Hnext].
    destruct r as [|d r']; [discriminate|].
    apply negb_true_iff in Hnext. specialize (IH Hr).
    rewrite (drop_cons_clean d r' Hnext) in IH.
    change (dropSpaceBeforePunctuation (c :: d :: r'))
      with (if isWhiteSpace c
            then match dropWhile isWhiteSpace (d :: r') with
                 | p :: _ => if isPunctuation p
                             then dropSpaceBeforePunctuation (d :: r')
                             else c :: dropSpaceBeforePunctuation (d :: r')
                 | [] => c :: dropSpaceBeforePunctuation (d :: r')
                 end
            else c :: dropSpaceBeforePunctuation (d :: r')).
    rewrite Hc. simpl dropWhile. rewrite Hnext.
    rewrite (drop_cons_clean d r' Hnext).
    destruct (isPunctuation d) eqn:Hp; [exact IH|].
    simpl. rewrite Hc, H32, Hnext, Hp. simpl.
    simpl in IH. rewrite Hnext in IH. exact IH.
  - rewrite (drop_cons_clean c r Hc). simpl. rewrite Hc. apply IH, H.
Qed.

(** [optimizePrompt] gives a tidy text. *)
Lemma optimizePrompt_tidy prompt : tidy (optimizePrompt prompt) = true.
Proof.
  unfold tidy, optimizePrompt. apply andb_true_intro. split.
  - apply drop_startsClean, collapse_startsClean, trim_startsClean.
  - apply drop_spacedTidily, collapse_singleSpaced, trim_endsClean.
Qed.

Lemma spacedTidily_singleSpaced s : spacedTidily s = true -> singleSpaced s = true.
Proof.
  induction s as [|c r IH]; [reflexivity|]. simpl.
  destruct (isWhiteSpace c); [|exact IH].
  intros H. apply andb_prop in H as [H Hr]. apply andb_prop in H as [H32 Hnext].
  rewrite H32, (IH Hr). destruct r as [|d r']; [discriminate|].
  apply andb_prop in Hnext as [Hd _]. rewrite Hd. reflexivity.
Qed.

Lemma singleSpaced_endsClean s : singleSpaced s = true -> endsClean s = true.
Proof.
  induction s as [|c r IH]; [reflexivity|]. simpl.
  destruct (isWhiteSpace c) eqn:Hc.
  - intros H. apply andb_prop in H as [H Hr]. apply andb_prop in H as [_ Hnext].
    destruct r as [|d r']; [discriminate|]. apply IH, Hr.
  - intros H. destruct r as [|d r']; [reflexivity|]. apply IH, H.
Qed.

Lemma singleSpaced_collapse_fix s :
  singleSpaced s = true -> collapseWhiteSpace s = s.
Proof.
  induction s as [|c r IH]; [reflexivity|]. intros H. simpl in H.
  destruct (isWhiteSpace c) eqn:Hc.
  - apply andb_prop in H as [H Hr]. apply andb_prop in H as [H32 Hnext].
    destruct r as [|d r']; [discriminate|].
    apply negb_true_iff in Hnext. apply N.eqb_eq in H32. subst c.
    change (collapseWhiteSpace (32%N :: d :: r'))
      with (if isWhiteSpace d then collapseWhiteSpace (d :: r')
            else 32%N :: collapseWhiteSpace (d :: r')).
    rewrite Hnext, (IH Hr). reflexivity.
  - rewrite (collapse_cons_clean c r Hc), (IH H). reflexivity.
Qed.

Lemma spacedTidily_drop_fix s :
  spacedTidily s = true -> dropSpaceBeforePunctuation s = s.
Proof.
  induction s as [|c r IH]; [reflexivity|]. intros H. simpl in H.
  destruct (isWhiteSpace c) eqn:Hc.
  - apply andb_prop in H as [H Hr]. apply andb_prop in H as [H32 Hnext].
    destruct r as [|d r']; [discriminate|].
    apply andb_prop in Hnext as [Hd Hp].
    apply negb_true_iff in Hd. apply negb_true_iff in Hp.
    change (dropSpaceBeforePunctuation (c :: d :: r'))
      with (if isWhiteSpace c
            then match dropWhile isWhiteSpace (d :: r') with
                 | p :: _ => if isPunctuation p
                             then dropSpaceBeforePunctuation (d :: r')
                             else c :: dropSpaceBeforePunctuation (d :: r')
                 | [] => c :: dropSpaceBeforePunctuation (d :: r')
                 end
            else c :: dropSpaceBeforePunctuation (d :: r')).
    rewrite Hc. simpl dropWhile. rewrite Hd, Hp, (IH Hr). reflexivity.
  - rewrite (drop_cons_clean c r Hc), (IH H). reflexivity.
Qed.

Lemma tidy_fixpoint s : tidy s = true -> optimizePrompt s = s.
Proof.
  unfold tidy. intros H. apply andb_prop in H as [Hs Ht].
  pose proof (spacedTidily_singleSpaced s Ht) as Hsingle.
  unfold optimizePrompt.
  rewrite (clean_trim_fix s Hs (singleSpaced_endsClean s Hsingle)).
  rewrite (singleSpaced_collapse_fix s Hsingle).
  apply spacedTidily_drop_fix, Ht.
Qed.

Lemma visible_collapse s : visible (collapseWhiteSpace s) = visible s.
Proof.
  unfold visible. induction s as [|c r IH]; [reflexivity|].
  simpl. destruct (isWhiteSpace c) eqn:Hc; simpl.
  - destruct r as [|d r']; [reflexivity|].
    destruct (isWhiteSpace d); [exact IH|]. simpl. exact IH.
  - rewrite Hc. simpl. rewrite IH. reflexivity.
Qed.

Lemma visible_drop s : visible (dropSpaceBeforePunctuation s) = visible s.
Proof.
  unfold visible. induction s as [|c r IH]; [reflexivity|].
  simpl. destruct (isWhiteSpace c) eqn:Hc; simpl.
  - destruct (dropWhile isWhiteSpace r) as [|p q]; simpl.
    + rewrite Hc. exact IH.
    + destruct (isPunctuation p); simpl; [|rewrite Hc]; exact IH.
  - rewrite Hc. simpl. rewrite IH. reflexivity.
Qed.

Lemma collapse_length s :
  List.length (collapseWhiteSpace s) <= List.length s.
Proof.
  induction s as [|c r IH]; [simpl; lia|].
  simpl. destruct (isWhiteSpace c); simpl.
  - destruct r as [|d r']; [simpl; lia|].
    destruct (isWhiteSpace d); simpl in *; lia.
  - lia.
Qed.

Lemma drop_length s :
  List.length (dropSpaceBeforePunctuation s) <= List.length s.
Proof.
  induction s as [|c r IH]; [simpl; lia|].
  simpl. destruct (isWhiteSpace c); simpl.
  - destruct (dropWhile isWhiteSpace r) as [|p q]; simpl; [lia|].
    destruct (isPunctuation p); simpl; lia.
  - lia.
Qed.

Lemma dropWhile_length p (s : jsstring) :
  List.length (dropWhile p s) <= List.length s.
Proof.
  induction s as [|x q IH]; simpl; [lia|]. destruct (p x); simpl; lia.
Qed.

Lemma trim_length s : List.length (trim s) <= List.length s.
Proof.
  unfold trim, trimEnd, trimStart. rewrite length_rev.
  pose proof (dropWhile_length isWhiteSpace (rev (dropWhile isWhiteSpace s))) as H1.
  rewrite length_rev in H1.
  pose proof (dropWhile_length isWhiteSpace s) as H2. lia.
Qed.

End OptimizeSpec.

(** ** lib/exa.ts: tweets, names and the search call *)

Module ExaMore.
Import Exa ExaFields ExaFacts JSFacts Shapes TrimFacts Views MoreViews Samples MoreSamples.

Lemma flat_map_snippets_nil cs :
  flat_map snippets cs = [] <-> forallb blank cs = true.
Proof.
  induction cs as [|c cs IH]; simpl; [tauto|].
  unfold snippets at 1, blank at 1.
  destruct (nonEmpty (trim (text c))) eqn:Ht.
  - assert (Hx : nonEmpty (text c) = true).
    { destruct (text c); [discriminate | reflexivity]. }
    rewrite Hx. simpl. split; discriminate.
  - rewrite andb_false_r. simpl. exact IH.
Qed.

Lemma flat_map_snippets_length cs :
  List.length (flat_map snippets cs) <= List.length cs.
Proof.
  induction cs as [|c cs IH]; simpl; [lia|].
  rewrite length_app. unfold snippets at 1.
  destruct (nonEmpty (text c) && nonEmpty (trim (text c))); simpl; lia.
Qed.

(** X1.  The tweets are the trimmed texts of the chunks whose trimmed
    text is not empty, in chunk order and with duplicates kept; there are
    no tweets exactly when every chunk is blank, and never more tweets
    than chunks. *)
Theorem tweets_are_the_nonblank_trimmed_texts (searchResult : ExaSearchResult) :
  tweets (extractProfileInfo searchResult) = flat_map snippets (chunks searchResult)
  /\ (tweets (extractProfileInfo searchResult) = []
      <-> forallb blank (chunks searchResult) = true)
  /\ List.length (tweets (extractProfileInfo searchResult))
     <= List.length (chunks searchResult).
Proof.
  assert (H : tweets (extractProfileInfo searchResult)
              = flat_map snippets (chunks searchResult)).
  { unfold extractProfileInfo. rewrite RouteSpec.fold_tweets. reflexivity. }
  rewrite H. split; [reflexivity|]. split.
  - apply flat_map_snippets_nil.
  - apply flat_map_snippets_length.
Qed.

(** X2.  Every extracted tweet is non-empty and has no white space at
    its ends. *)
Theorem tweets_are_trimmed (searchResult : ExaSearchResult) (t : jsstring) :
  In t (tweets (extractProfileInfo searchResult)) ->
  nonEmpty t = true /\ trim t = t.
Proof.
  unfold extractProfileInfo. rewrite RouteSpec.fold_tweets. simpl.
  rewrite in_flat_map. intros (c & _ & Hc). unfold snippets in Hc.
  destruct (nonEmpty (text c) && nonEmpty (trim (text c))) eqn:E; [|destruct Hc].
  destruct Hc as [<-|[]]. apply andb_prop in E as [_ E].
  split; [exact E | apply trim_idempotent].
Qed.

Lemma tweets_are_trimmed_witness :
  nonEmpty (js "Maps are arguments.") = true
  /\ trim (js "Maps are arguments.") = js "Maps are arguments.".
Proof.
  apply (tweets_are_trimmed paddedTweets (js "Maps are arguments.")).
  vm_compute. left. reflexivity.
Defined.

Example tweets_of_paddedTweets :
  tweets (extractProfileInfo paddedTweets)
  = [ js "Maps are arguments."; js "Maps are arguments." ].
Proof. vm_compute. reflexivity. Qed.

Lemma matchBeforeParen_no_paren t g :
  matchBeforeParen t = Some g -> Forall (fun c => c <> 40%N) g.
Proof.
  unfold matchBeforeParen. intros H.
  assert (Hg : g = takeWhile (fun c => negb (N.eqb c 40)) t).
  { destruct (takeWhile _ t); [discriminate | inversion H; reflexivity]. }
  subst g.
  eapply Forall_impl; [|apply takeWhile_Forall].
  simpl. intros c Hc. apply negb_true_iff, N.eqb_neq in Hc. exact Hc.
Qed.

Lemma titleName_shape c n :
  titleName c = Some n -> Forall (fun u => u <> 40%N) n /\ trim n = n.
Proof.
  unfold titleName. destruct (chunkTitle c) as [t|]; [|discriminate].
  destruct (nonEmpty t); [|discriminate].
  destruct (matchBeforeParen t) as [g|] eqn:Hg; [|discriminate].
  destruct (nonEmpty g); [|discriminate].
  intros H. inversion H. split.
  - apply trim_Forall, (matchBeforeParen_no_paren t g Hg).
  - apply trim_idempotent.
Qed.

Lemma fold_nameStep_shape cs : forall n0 n,
  (forall m, n0 = Some m -> Forall (fun u => u <> 40%N) m /\ trim m = m) ->
  fold_left nameStep cs n0 = Some n ->
  Forall (fun u => u <> 40%N) n /\ trim n = n.
Proof.
  induction cs as [|c cs IH]; intros n0 n H0; simpl.
  - intros ->. apply H0. reflexivity.
  - apply IH. intros m. unfold nameStep.
    destruct (truthyStr n0); simpl; [apply H0|].
    destruct (titleName c) as [x|] eqn:Hx; [|apply H0].
    intros Hm. inversion Hm. subst x. apply (titleName_shape c m Hx).
Qed.

(** X3.  An extracted name contains no opening parenthesis and has no
    white space at its ends. *)
Theorem name_has_no_parenthesis (searchResult : ExaSearchResult) (n : jsstring) :
  name (extractProfileInfo searchResult) = Some n ->
  Forall (fun u => u <> 40%N) n /\ trim n = n.
Proof.
  unfold extractProfileInfo. rewrite fold_name. simpl.
  apply fold_nameStep_shape. discriminate.
Qed.

Lemma name_has_no_parenthesis_witness :
  Forall (fun u => u <> 40%N) (js "Jane Doe") /\ trim (js "Jane Doe") = js "Jane Doe".
Proof.
  apply (name_has_no_parenthesis twoNames (js "Jane Doe")). reflexivity.
Defined.

(** X4.  Without an API key [searchXProfile] makes no request: it logs
    the missing key and throws the generic search failure. *)
Theorem search_without_key_makes_no_request
    (w : World) (this : ExaClient) (xHandle : jsstring) :
  truthyStr (apiKey this) = false ->
  searchXProfile w this xHandle
  = ([ ConsoleError "Error searching X profile:" (Error "Exa API key is required") ],
     Throw (Error "Failed to search X profile")).
Proof.
  intros H. unfold searchXProfile, validateApiKey. rewrite H. reflexivity.
Qed.

Lemma search_without_key_makes_no_request_witness :
  searchXProfile brokenWorld keylessExa (js "jdoe")
  = ([ ConsoleError "Error searching X profile:" (Error "Exa API key is required") ],
     Throw (Error "Failed to search X profile")).
Proof.
  apply (search_without_key_makes_no_request brokenWorld keylessExa (js "jdoe")).
  reflexivity.
Defined.

(** X5.  With an API key [searchXProfile] makes exactly one request, the
    first event of its trace; it returns the data of the response as it
    is, and turns every failure of the request into the generic search
    failure. *)
Theorem search_with_key_makes_one_request
    (w : World) (this : ExaClient) (xHandle : jsstring) :
  truthyStr (apiKey this) = true ->
  snd (searchXProfile w this xHandle)
  = match axios_post w (searchRequest this xHandle) with
    | Ok data => Ok data
    | Throw _ => Throw (Error "Failed to search X profile")
    end
  /\ exists rest,
       fst (searchXProfile w this xHandle)
       = ExaSearch (searchRequest this xHandle) :: rest
       /\ outboundQueries rest = [].
Proof.
  intros H. unfold searchXProfile, validateApiKey. rewrite H. simpl.
  destruct (axios_post w (searchRequest this xHandle)) as [data|e]; simpl.
  - split; [reflexivity|]. exists []. split; reflexivity.
  - split; [reflexivity|]. eexists. split; reflexivity.
Qed.

Lemma search_with_key_makes_one_request_witness :
  snd (searchXProfile helpfulWorld keyedExa (js "@jdoe")) = Ok followersThenBio.
Proof.
  apply (search_with_key_makes_one_request helpfulWorld keyedExa (js "@jdoe")).
  reflexivity.
Defined.

(** X6.  A handle without a leading "@" is searched like the same handle
    with one "@" in front: both give the same request. *)
Theorem handle_with_and_without_at_search_alike
    (this : ExaClient) (handle : jsstring) :
  startsWith handle (js "@") = false ->
  cleanHandle handle = handle
  /\ searchRequest this (js "@" ++ handle) = searchRequest this handle.
Proof.
  intros H.
  assert (Hc : cleanHandle handle = handle).
  { unfold cleanHandle, replaceLeadingAt.
    destruct handle as [|c r]; [reflexivity|].
    simpl in H. destruct (N.eqb_spec 64 c) as [<-|Hne].
    - destruct r; discriminate.
    - destruct c as [|p]; [reflexivity|].
      do 7 (destruct p as [p|p|]; try reflexivity).
      exfalso. apply Hne. reflexivity. }
  split; [exact Hc|].
  unfold searchRequest, searchQuery.
  change (cleanHandle (js "@" ++ handle)) with handle.
  rewrite Hc. reflexivity.
Qed.

Lemma handle_with_and_without_at_search_alike_witness :
  searchRequest keyedExa (js "@jdoe") = searchRequest keyedExa (js "jdoe").
Proof.
  apply (handle_with_and_without_at_search_alike keyedExa (js "jdoe")).
  reflexivity.
Defined.

End ExaMore.

(** ** lib/openai.ts: the outcomes of [generatePersona] *)

Module OpenAIMore.
Import OpenAI JSFacts Views Samples MoreSamples.

Lemma invalidFormat_object props :
  invalidFormat (VObject props)
  = Ok (negb (truthy (getObjectProperty props (js "name"))
              && truthy (getObjectProperty props (js "traits"))
              && truthy (getObjectProperty props (js "interests")))).
Proof.
  unfold invalidFormat, getProperty.
  destruct (truthy (getObjectProperty props (js "name"))); simpl; [|reflexivity].
  destruct (truthy (getObjectProperty props (js "traits"))); reflexivity.
Qed.

(** X7.  When the client has a key, the API replies with a non-empty
    text and the text parses to a JSON object, [generatePersona] makes
    one chat request and returns that object unchanged if its name,
    traits and interests are all truthy; otherwise (a field missing,
    null, false, 0 or the empty string) it throws the generic failure.
    An empty array or object counts as present. *)
Theorem generatePersona_returns_the_parsed_object
    (w : World) (this this' : OpenAIClient) (sdk : SDK)
    (context : PersonaGenerationContext) (response : ChatCompletion)
    (reply : jsstring) (props : list (jsstring * Value)) :
  initializeClient this = Ok (this', sdk) ->
  chat_completions_create w (chatRequest context) = Ok response ->
  firstContent response = Some reply ->
  nonEmpty reply = true ->
  JSON_parse w reply = Ok (VObject props) ->
  snd (generatePersona w this context)
  = (if truthy (getObjectProperty props (js "name"))
        && truthy (getObjectProperty props (js "traits"))
        && truthy (getObjectProperty props (js "interests"))
     then Ok (VObject props)
     else Throw GenerationFailure)
  /\ chatRequests (fst (generatePersona w this context)) = [ chatRequest context ].
Proof.
  intros Hinit Hchat Hreply Hne Hparse.
  unfold generatePersona. rewrite Hinit. simpl. rewrite Hchat. simpl.
  rewrite Hreply, Hne. simpl. rewrite Hparse. simpl.
  rewrite invalidFormat_object. simpl.
  destruct (truthy (getObjectProperty props (js "name"))
            && truthy (getObjectProperty props (js "traits"))
            && truthy (getObjectProperty props (js "interests")));
    split; reflexivity.
Qed.

Lemma generatePersona_returns_the_parsed_object_witness :
  snd (generatePersona helpfulWorld keyedOpenAI someContext) = Ok somePersona.
Proof.
  apply (generatePersona_returns_the_parsed_object helpfulWorld keyedOpenAI
           {| client := Some {| sdkApiKey := Some (js "openai-key") |};
              apiKey := Some (js "openai-key") |}
           {| sdkApiKey := Some (js "openai-key") |}
           someContext
           {| choices := [ {| message := Some {| content := Some personaReply |} |} ] |}
           personaReply
           [ (js "name", VString (js "Jane"));
             (js "handle", VString (js "jdoe"));
             (js "bio", VString (js "Cartographer."));
             (js "traits", VArray [ VString (js "curious") ]);
             (js "interests", VArray [ VString (js "maps") ]) ]);
    reflexivity.
Defined.

(** A reply whose traits and interests are empty arrays is accepted; a
    reply whose name is the empty string is not. *)
Example empty_arrays_pass_empty_name_fails :
  invalidFormat (VObject [ (js "name", VString (js "Jane"));
                           (js "traits", VArray []);
                           (js "interests", VArray []) ]) = Ok false
  /\ invalidFormat (VObject [ (js "name", VString []);
                              (js "traits", VArray [ VString (js "curious") ]);
                              (js "interests", VArray [ VString (js "maps") ]) ])
     = Ok true.
Proof. split; reflexivity. Qed.

(** X8.  A client without a key and without a cached handle makes no
    chat request: [generatePersona] logs the missing key and throws the
    generic failure. *)
Theorem generatePersona_without_key_makes_no_request
    (w : World) (this : OpenAIClient) (context : PersonaGenerationContext) :
  client this = None ->
  truthyStr (apiKey this) = false ->
  generatePersona w this context
  = ([ ConsoleError "Error generating persona:" (Error "OpenAI API key is required") ],
     Throw GenerationFailure).
Proof.
  intros Hc Hk. unfold generatePersona, initializeClient.
  rewrite Hc, Hk. reflexivity.
Qed.

Lemma generatePersona_without_key_makes_no_request_witness :
  generatePersona brokenWorld keylessOpenAI someContext
  = ([ ConsoleError "Error generating persona:" (Error "OpenAI API key is required") ],
     Throw GenerationFailure).
Proof.
  apply (generatePersona_without_key_makes_no_request brokenWorld keylessOpenAI
           someContext); reflexivity.
Defined.

(** X9.  Whatever the world does, [generatePersona] makes at most one
    chat request; what it returns is a value that [JSON.parse] gave for
    the reply and that passed the validation, and what it throws is the
    generic failure. *)
Theorem generatePersona_one_request_generic_failure
    (w : World) (this : OpenAIClient) (context : PersonaGenerationContext) :
  List.length (chatRequests (fst (generatePersona w this context))) <= 1
  /\ match snd (generatePersona w this context) with
     | Ok personaData =>
         invalidFormat personaData = Ok false
         /\ exists response reply,
              chat_completions_create w (chatRequest context) = Ok response
              /\ firstContent response = Some reply
              /\ nonEmpty reply = true
              /\ JSON_parse w reply = Ok personaData
     | Throw e => e = GenerationFailure
     end.
Proof.
  split.
  - rewrite PersonaSpec.generatePersona_requests.
    destruct (initializeClient this); simpl; lia.
  - unfold generatePersona.
    destruct (initializeClient this) as [[this' sdk]|e]; simpl; [|reflexivity].
    destruct (chat_completions_create w (chatRequest context)) as [response|e]
      eqn:Hchat; simpl; [|reflexivity].
    destruct (firstContent response) as [reply|] eqn:Hreply; simpl; [|reflexivity].
    destruct (nonEmpty reply) eqn:Hne; simpl; [|reflexivity].
    destruct (JSON_parse w reply) as [personaData|e] eqn:Hparse; simpl;
      [|reflexivity].
    destruct (invalidFormat personaData) as [[|]|e] eqn:Hinv; simpl;
      try reflexivity.
    split; [exact Hinv|]. exists response, reply. repeat split; assumption.
Qed.

(** X10.  A failed API call, a reply without content (no choice, no
    message, null or the empty string), a reply that does not parse,
    and a reply that parses to null all end in the generic failure. *)
Theorem generatePersona_rejects_unusable_replies
    (w : World) (this : OpenAIClient) (context : PersonaGenerationContext) :
  (exists e, chat_completions_create w (chatRequest context) = Throw e)
  \/ (exists response,
        chat_completions_create w (chatRequest context) = Ok response
        /\ truthyStr (firstContent response) = false)
  \/ (exists response reply,
        chat_completions_create w (chatRequest context) = Ok response
        /\ firstContent response = Some reply
        /\ (JSON_parse w reply = Ok VNull
            \/ exists e, JSON_parse w reply = Throw e)) ->
  snd (generatePersona w this context) = Throw GenerationFailure.
Proof.
  intros H. unfold generatePersona.
  destruct (initializeClient this) as [[this' sdk]|e0]; simpl; [|reflexivity].
  destruct H as [[e H]|[(response & H & Hc)|(response & reply & H & Hc & Hp)]];
    rewrite H; simpl; [reflexivity| |].
  - destruct (firstContent response) as [reply|]; simpl; [|reflexivity].
    simpl in Hc. rewrite Hc. reflexivity.
  - rewrite Hc. destruct (nonEmpty reply); simpl; [|reflexivity].
    destruct Hp as [Hp|[e Hp]]; rewrite Hp; reflexivity.
Qed.

Lemma generatePersona_rejects_unusable_replies_witness :
  snd (generatePersona brokenWorld keyedOpenAI someContext) = Throw GenerationFailure.
Proof.
  apply (generatePersona_rejects_unusable_replies brokenWorld keyedOpenAI someContext).
  left. exists (HostError "429"). reflexivity.
Defined.

(** X11.  [initializeClient] caches the handle: after a first success
    the instance holds the handle, keeps its key, and every later call
    gives the same handle and the same instance. *)
Theorem initializeClient_caches_the_handle
    (this this' : OpenAIClient) (sdk : SDK) :
  initializeClient this = Ok (this', sdk) ->
  client this' = Some sdk
  /\ apiKey this' = apiKey this
  /\ initializeClient this' = Ok (this', sdk).
Proof.
  unfold initializeClient.
  destruct (client this) as [c|] eqn:Hc.
  - intros H. inversion H. subst. rewrite Hc. repeat split; reflexivity.
  - destruct (truthyStr (apiKey this)); simpl; [|discriminate].
    intros H. inversion H. subst. simpl. repeat split; reflexivity.
Qed.

Lemma initializeClient_caches_the_handle_witness :
  client {| client := Some {| sdkApiKey := Some (js "openai-key") |};
            apiKey := Some (js "openai-key") |}
  = Some {| sdkApiKey := Some (js "openai-key") |}.
Proof.
  apply (initializeClient_caches_the_handle keyedOpenAI
           {| client := Some {| sdkApiKey := Some (js "openai-key") |};
              apiKey := Some (js "openai-key") |}
           {| sdkApiKey := Some (js "openai-key") |}).
  reflexivity.
Defined.

End OpenAIMore.

(** ** The prompt templates and [optimizePrompt] *)

Module PromptMore.
Import JSFacts Shapes TrimFacts Views MoreViews Samples MoreSamples OptimizeSpec.
Import PromptEngineer.

Lemma spacedTidily_at s : forall a c b,
  spacedTidily s = true -> s = a ++ c :: b -> isWhiteSpace c = true ->
  c = 32%N
  /\ exists d b', b = d :: b' /\ isWhiteSpace d = false /\ isPunctuation d = false.
Proof.
  induction s as [|x r IH]; intros a c b Ht Hs Hc.
  - destruct a; discriminate.
  - destruct a as [|y a]; simpl in Hs; inversion Hs; subst.
    + simpl in Ht. rewrite Hc in Ht.
      apply andb_prop in Ht as [Ht _]. apply andb_prop in Ht as [H32 Hnext].
      apply N.eqb_eq in H32. split; [exact H32|].
      destruct b as [|d b']; [discriminate|].
      apply andb_prop in Hnext as [Hd Hp].
      apply negb_true_iff in Hd. apply negb_true_iff in Hp.
      exists d, b'. repeat split; assumption.
    + apply (IH a c b); [|reflexivity | exact Hc].
      simpl in Ht. destruct (isWhiteSpace y); [|exact Ht].
      apply andb_prop in Ht as [_ Ht]. exact Ht.
Qed.

(** X12.  In an optimized prompt every white space unit is a single
    space that stands between two units that are not white space, and
    the unit after it is not one of . , ; : ! ? *)
Theorem optimized_prompt_is_tidy (prompt a b : jsstring) (c : N) :
  optimizePrompt prompt = a ++ c :: b ->
  isWhiteSpace c = true ->
  c = 32%N
  /\ (exists a' x, a = a' ++ [x] /\ isWhiteSpace x = false)
  /\ (exists d b', b = d :: b' /\ isWhiteSpace d = false /\ isPunctuation d = false).
Proof.
  intros Hs Hc.
  pose proof (optimizePrompt_tidy prompt) as Ht. unfold tidy in Ht.
  apply andb_prop in Ht as [Hstart Hspaced].
  destruct (spacedTidily_at (optimizePrompt prompt) a c b Hspaced Hs Hc)
    as [H32 Hnext].
  split; [exact H32|]. split; [|exact Hnext].
  destruct a as [|h t].
  - exfalso. rewrite Hs in Hstart. simpl in Hstart. rewrite Hc in Hstart.
    discriminate.
  - assert (Hne : h :: t <> []) by discriminate.
    destruct (exists_last Hne) as (a' & y & Ha). rewrite Ha in Hs |- *.
    exists a', y. split; [reflexivity|].
    destruct (isWhiteSpace y) eqn:Hy; [|reflexivity]. exfalso.
    rewrite <- app_assoc in Hs. simpl in Hs.
    destruct (spacedTidily_at (optimizePrompt prompt) a' y (c :: b) Hspaced Hs Hy)
      as [_ (d & b' & Hd & Hws & _)].
    inversion Hd. subst d. rewrite Hc in Hws. discriminate.
Qed.

Lemma optimized_prompt_is_tidy_witness :
  32%N = 32%N
  /\ (exists a' x, js "Hi" = a' ++ [x] /\ isWhiteSpace x = false)
  /\ (exists d b', js "there!" = d :: b'
                   /\ isWhiteSpace d = false /\ isPunctuation d = false).
Proof.
  apply (optimized_prompt_is_tidy
           ([32; 32] ++ js "Hi" ++ [9; 10] ++ js "there" ++ [32] ++ js "!" ++ [10])%N
           (js "Hi") (js "there!") 32%N);
    reflexivity.
Defined.

(** X13.  [optimizePrompt] is idempotent. *)
Theorem optimizePrompt_idempotent (prompt : jsstring) :
  optimizePrompt (optimizePrompt prompt) = optimizePrompt prompt.
Proof. apply tidy_fixpoint, optimizePrompt_tidy. Qed.

(** X14.  [optimizePrompt] removes or replaces white space only: the
    units that are not white space are kept, in order, and the result is
    never longer than the prompt. *)
Theorem optimizePrompt_keeps_the_visible_text (prompt : jsstring) :
  visible (optimizePrompt prompt) = visible prompt
  /\ List.length (optimizePrompt prompt) <= List.length prompt.
Proof.
  unfold optimizePrompt. split.
  - rewrite visible_drop, visible_collapse. apply filter_trim_ws.
  - pose proof (drop_length (collapseWhiteSpace (trim prompt))).
    pose proof (collapse_length (trim prompt)).
    pose proof (trim_length prompt). lia.
Qed.

Example optimizePrompt_sample :
  optimizePrompt ([32; 32] ++ js "Hi" ++ [9; 10] ++ js "there" ++ [32]
                  ++ js "! How are you" ++ [32; 160] ++ js "?" ++ [10])%N
  = js "Hi there! How are you?".
Proof. vm_compute. reflexivity. Qed.

Lemma join_includes sep x l :
  In x l -> exists a b, join sep l = a ++ x ++ b.
Proof.
  induction l as [|y l IH]; [intros []|].
  intros [->|H].
  - destruct l as [|z l].
    + exists [], []. simpl. rewrite app_nil_r. reflexivity.
    + exists [], (sep ++ join sep (z :: l)). reflexivity.
  - destruct (IH H) as (a & b & Hab).
    destruct l as [|z l]; [destruct H|].
    exists (y ++ sep ++ a), b.
    rewrite PersonaSpec.join_cons_app, Hab.
    repeat rewrite <- app_assoc. reflexivity.
Qed.

Lemma bulleted_includes t l :
  In t l -> exists a b, bulleted l = a ++ (OpenAI.bullet ++ t) ++ b.
Proof.
  intros H. unfold bulleted. apply join_includes.
  apply (in_map (fun item => OpenAI.bullet ++ item)), H.
Qed.

Lemma userMessage_shape tweets bio description :
  OpenAI.userMessage (withTweets tweets bio description)
  = userHeader bio ++ bulleted (firstn 10 tweets) ++ userFooter.
Proof.
  unfold OpenAI.userMessage, withTweets, userHeader, userFooter, unlines,
    OpenAI.tweetList, bulleted, slice0.
  cbn [recentTweets contextBio profileDescription].
  repeat rewrite PersonaSpec.join_cons_app.
  repeat rewrite <- app_assoc. reflexivity.
Qed.

Lemma createPersonaUserPrompt_shape tweets bio description :
  createPersonaUserPrompt (withTweets tweets bio description)
  = engineerHeader bio description ++ bulleted (firstn 10 tweets) ++ engineerFooter.
Proof.
  unfold createPersonaUserPrompt, withTweets, engineerHeader, engineerFooter,
    unlines, tweetList, bulleted, slice0.
  cbn [recentTweets contextBio profileDescription].
  repeat rewrite PersonaSpec.join_cons_app.
  repeat rewrite <- app_assoc. reflexivity.
Qed.

Lemma includes_inside a s b sub :
  (exists x y, s = x ++ sub ++ y) -> includes (a ++ s ++ b) sub = true.
Proof.
  intros (x & y & ->).
  replace (a ++ (x ++ sub ++ y) ++ b) with ((a ++ x) ++ sub ++ (y ++ b)).
  - apply includes_app.
  - repeat rewrite <- app_assoc. reflexivity.
Qed.

(** X15.  Each of the first ten tweets occurs in both user prompts,
    right after a bullet. *)
Theorem first_ten_tweets_are_listed
    (tweets : list jsstring) (bio description : option jsstring) (t : jsstring) :
  In t (firstn 10 tweets) ->
  includes (OpenAI.userMessage (withTweets tweets bio description))
           (OpenAI.bullet ++ t) = true
  /\ includes (createPersonaUserPrompt (withTweets tweets bio description))
              (OpenAI.bullet ++ t) = true.
Proof.
  intros H. rewrite userMessage_shape, createPersonaUserPrompt_shape.
  split; apply includes_inside, bulleted_includes, H.
Qed.

Lemma first_ten_tweets_are_listed_witness :
  includes (OpenAI.userMessage (withTweets twelveTweets None None))
           (OpenAI.bullet ++ js "post 10") = true
  /\ includes (createPersonaUserPrompt (withTweets twelveTweets None None))
              (OpenAI.bullet ++ js "post 10") = true.
Proof.
  apply (first_ten_tweets_are_listed twelveTweets None None (js "post 10")).
  vm_compute. do 9 right. left. reflexivity.
Defined.

(** X16.  The prompt of [PromptEngineer] embeds a non-empty profile
    description after "Profile description: "; the prompt that
    [generatePersona] sends does not depend on the profile description
    at all. *)
Theorem profile_description_reaches_one_prompt_only
    (tweets : list jsstring) (bio : option jsstring) (d : jsstring) :
  nonEmpty d = true ->
  includes (createPersonaUserPrompt (withTweets tweets bio (Some d)))
           (js "Profile description: " ++ d) = true
  /\ forall other,
       OpenAI.userMessage (withTweets tweets bio (Some d))
       = OpenAI.userMessage (withTweets tweets bio other).
Proof.
  intros H. split; [|reflexivity].
  rewrite createPersonaUserPrompt_shape. unfold engineerHeader, descriptionPart.
  rewrite H.
  repeat rewrite <- app_assoc.
  rewrite (app_assoc (js "Profile description: ") d).
  repeat rewrite (app_assoc _ _ ((js "Profile description: " ++ d) ++ _)).
  apply includes_app.
Qed.

Lemma profile_description_reaches_one_prompt_only_witness :
  includes (createPersonaUserPrompt
              (withTweets twelveTweets None (Some (js "Cartographer in Toronto."))))
           (js "Profile description: Cartographer in Toronto.") = true.
Proof.
  apply (profile_description_reaches_one_prompt_only twelveTweets None
           (js "Cartographer in Toronto.")).
  reflexivity.
Defined.

End PromptMore.

(** ** The route handlers: the remaining branches *)

Module RouteMore.
Import JSFacts Views MoreViews Samples MoreSamples.

(** X17.  For an object body with truthy persona and location, when the
    recommender returns a non-empty list the locations endpoint calls
    it once and answers 200 with success true, no error and the list as
    it was returned. *)
Theorem locations_endpoint_200_returns_the_list
    (w : World) (props : list (jsstring * Value)) (found : list Location) :
  let persona := getObjectProperty props (js "persona") in
  let location := getObjectProperty props (js "location") in
  truthy persona = true -> truthy location = true ->
  findRecommendedLocations w persona location = Ok found ->
  found <> [] ->
  LocationsRoute.POST w (Ok (VObject props))
  = ([ MapsFind persona location ],
     Ok {| status := 200;
           body := {| success := true; error := None;
                      responseLocations := Some found;
                      responsePersona := None |} |}).
Proof.
  intros persona location Hp Hl Hfind Hne.
  unfold LocationsRoute.POST. simpl. fold persona location.
  rewrite Hp, Hl. simpl. rewrite Hfind. simpl.
  destruct found; [congruence | reflexivity].
Qed.

Lemma locations_endpoint_200_returns_the_list_witness :
  LocationsRoute.POST helpfulWorld (Ok (VObject locationsBody))
  = ([ MapsFind somePersona (VString (js "Toronto")) ],
     Ok {| status := 200;
           body := {| success := true; error := None;
                      responseLocations := Some [ louvre ];
                      responsePersona := None |} |}).
Proof.
  apply (locations_endpoint_200_returns_the_list helpfulWorld locationsBody [ louvre ]);
    try reflexivity.
  discriminate.
Defined.

(** X18.  The locations endpoint answers 500 with success false and its
    fixed message when the body cannot be read, when the body is null,
    and when the recommender fails; the error itself goes to the log
    only. *)
Theorem locations_endpoint_500_on_failure
    (w : World) (request : Outcome Value) :
  (exists e, request = Throw e)
  \/ request = Ok VNull
  \/ (exists props e,
        request = Ok (VObject props)
        /\ truthy (getObjectProperty props (js "persona")) = true
        /\ truthy (getObjectProperty props (js "location")) = true
        /\ findRecommendedLocations w (getObjectProperty props (js "persona"))
             (getObjectProperty props (js "location")) = Throw e) ->
  snd (LocationsRoute.POST w request)
  = Ok (failure "Failed to find recommended locations. Please try again later." 500)
  /\ exists e, In (ConsoleError "Error generating locations:" e)
                  (fst (LocationsRoute.POST w request)).
Proof.
  intros [[e ->]|[->|(props & e & -> & Hp & Hl & Hfind)]].
  - split; [reflexivity|]. exists e. left. reflexivity.
  - split; [reflexivity|]. eexists. left. reflexivity.
  - unfold LocationsRoute.POST. simpl. rewrite Hp, Hl. simpl. rewrite Hfind.
    split; [reflexivity|]. exists e. right. left. reflexivity.
Qed.

Lemma locations_endpoint_500_on_failure_witness :
  snd (LocationsRoute.POST brokenWorld (Ok (VObject locationsBody)))
  = Ok (failure "Failed to find recommended locations. Please try again later." 500).
Proof.
  apply (locations_endpoint_500_on_failure brokenWorld (Ok (VObject locationsBody))).
  right. right. exists locationsBody, (HostError "OVER_QUERY_LIMIT").
  repeat split; reflexivity.
Defined.

Ltac answer r := exists r; repeat split; simpl; try tauto; try lia; try discriminate.

(** X19.  Whatever the request and the world, the locations endpoint
    answers: it never throws, its status is 200, 400, 404 or 500,
    success is true exactly for 200, a failure carries an error message
    and no locations, and the recommender is called at most once. *)
Theorem locations_endpoint_always_answers (w : World) (request : Outcome Value) :
  exists r,
    snd (LocationsRoute.POST w request) = Ok r
    /\ In (status r) [ 200; 400; 404; 500 ]%N
    /\ (success (body r) = true <-> status r = 200%N)
    /\ (success (body r) = false ->
        error (body r) <> None /\ responseLocations (body r) = None)
    /\ List.length (mapsCalls (fst (LocationsRoute.POST w request))) <= 1.
Proof.
  unfold LocationsRoute.POST.
  destruct request as [body|e]; simpl;
    [|answer (failure "Failed to find recommended locations. Please try again later." 500)].
  destruct (getProperty body (js "persona")) as [persona|e] eqn:Hp; simpl;
    [|answer (failure "Failed to find recommended locations. Please try again later." 500)].
  destruct (getProperty body (js "location")) as [location|e] eqn:Hl; simpl;
    [|answer (failure "Failed to find recommended locations. Please try again later." 500)].
  destruct (negb (truthy persona) || negb (truthy location)); simpl;
    [answer (failure "Invalid request. Please provide both persona and location." 400)|].
  destruct (findRecommendedLocations w persona location) as [found|e]; simpl;
    [|answer (failure "Failed to find recommended locations. Please try again later." 500)].
  destruct found as [|l found]; simpl.
  - answer (failure "No suitable locations found. Please try a different location or X profile." 404).
  - answer {| status := 200;
              body := {| success := true; error := None;
                         responseLocations := Some (l :: found);
                         responsePersona := None |} |}.
Qed.

(** X20.  A request whose xHandle is missing or falsy is answered 400
    with success false and no external call, whatever the two imported
    bindings are. *)
Theorem persona_endpoint_400_without_handle
    (exaClient : Export Exa.ExaClient) (openaiClient : Export OpenAI.OpenAIClient)
    (w : World) (props : list (jsstring * Value)) :
  ownProperty props (js "xHandle") = None
  \/ truthy (getObjectProperty props (js "xHandle")) = false ->
  PersonaRoute.handle exaClient openaiClient w (Ok (VObject props))
  = ([], Ok (failure "Invalid X handle. Please provide a valid X username." 400))
  /\ PersonaRoute.POST w (Ok (VObject props))
     = ([], Ok (failure "Invalid X handle. Please provide a valid X username." 400)).
Proof.
  intros H.
  assert (Hf : truthy (getObjectProperty props (js "xHandle")) = false).
  { destruct H as [H|H]; [|exact H].
    unfold getObjectProperty. rewrite H. reflexivity. }
  unfold PersonaRoute.POST, PersonaRoute.handle. simpl. rewrite Hf.
  split; reflexivity.
Qed.

Lemma persona_endpoint_400_without_handle_witness :
  PersonaRoute.POST helpfulWorld (Ok (VObject cityOnlyBody))
  = ([], Ok (failure "Invalid X handle. Please provide a valid X username." 400)).
Proof.
  apply (persona_endpoint_400_without_handle (Exa.exaClient helpfulWorld)
           (OpenAI.openaiClient helpfulWorld) helpfulWorld cityOnlyBody).
  left. reflexivity.
Defined.

(** X21.  As the persona route is bound to the exports of lib/exa.ts and
    lib/openai.ts, every request is answered 400 or 500 with success
    false, and no search and no chat request is made. *)
Theorem persona_endpoint_answers_400_or_500 (w : World) (request : Outcome Value) :
  exists r,
    snd (PersonaRoute.POST w request) = Ok r
    /\ (status r = 400%N \/ status r = 500%N)
    /\ success (body r) = false
    /\ outboundQueries (fst (PersonaRoute.POST w request)) = []
    /\ chatRequests (fst (PersonaRoute.POST w request)) = [].
Proof.
  unfold PersonaRoute.POST, PersonaRoute.handle.
  destruct request as [body|e]; simpl;
    [|answer (failure "Failed to generate persona. Please try again later." 500)].
  destruct (getProperty body (js "xHandle")) as [xHandle|e]; simpl;
    [|answer (failure "Failed to generate persona. Please try again later." 500)].
  destruct (truthy xHandle); simpl;
    [|answer (failure "Invalid X handle. Please provide a valid X username." 400)].
  destruct xHandle; simpl;
    answer (failure "Failed to generate persona. Please try again later." 500).
Qed.

Lemma ownProperty_filter_other props k skip :
  streq skip k = false ->
  ownProperty (filter (fun kv => negb (streq (fst kv) skip)) props) k
  = ownProperty props k.
Proof.
  intros H. induction props as [|[k' v] props IH]; [reflexivity|].
  simpl. destruct (streq k' skip) eqn:Hs; simpl.
  - apply streq_eq in Hs. subst k'. rewrite H. exact IH.
  - rewrite IH. reflexivity.
Qed.

(** X22.  The persona of a response keeps every property of the
    generated object and reads the profile image of the search under
    [profileImageUrl] (undefined when the search found none), also when
    the generated object had a property of that name. *)
Theorem withProfileImage_sets_one_property
    (props : list (jsstring * Value)) (image : option jsstring) (k : jsstring) :
  getProperty (PersonaRoute.withProfileImage (VObject props) image) k
  = if streq (js "profileImageUrl") k
    then Ok match image with Some u => VString u | None => VUndefined end
    else getProperty (VObject props) k.
Proof.
  unfold PersonaRoute.withProfileImage, getProperty, getObjectProperty.
  cbn [ownProperty].
  destruct (streq (js "profileImageUrl") k) eqn:Hk; [reflexivity|].
  rewrite (ownProperty_filter_other props k (js "profileImageUrl") Hk).
  reflexivity.
Qed.

(** X23.  Over client instances, when the search has a key and finds at
    least one tweet and the persona is generated, the handler makes the
    search request, then what [generatePersona] does for the tweets and
    the bio (the empty string when there is none), and answers 200 with
    the generated persona and the profile image of the search. *)
Theorem persona_handler_200_over_instances
    (w : World) (exa : Exa.ExaClient) (openai : OpenAI.OpenAIClient)
    (props : list (jsstring * Value)) (s : jsstring)
    (searchResult : ExaSearchResult) (trace : list Event) (personaData : Value) :
  let profileInfo := Exa.extractProfileInfo searchResult in
  let context := {| recentTweets := Exa.tweets profileInfo;
                    contextBio := PersonaRoute.bioOrEmpty (Exa.bio profileInfo);
                    profileDescription := None |} in
  getObjectProperty props (js "xHandle") = VString s ->
  nonEmpty s = true ->
  truthyStr (Exa.apiKey exa) = true ->
  axios_post w (Exa.searchRequest exa (replaceLeadingAt s)) = Ok searchResult ->
  Exa.tweets profileInfo <> [] ->
  OpenAI.generatePersona w openai context = (trace, Ok personaData) ->
  PersonaRoute.handle (Instance exa) (Instance openai) w (Ok (VObject props))
  = (ExaSearch (Exa.searchRequest exa (replaceLeadingAt s)) :: trace,
     Ok {| status := 200;
           body := {| success := true; error := None;
                      responseLocations := None;
                      responsePersona :=
                        Some (PersonaRoute.withProfileImage personaData
                                (Exa.profileImageUrl profileInfo)) |} |}).
Proof.
  intros profileInfo context Hx Hs Hkey Hpost Htweets Hgen.
  assert (Hlen : Nat.eqb (List.length (Exa.tweets profileInfo)) 0 = false).
  { destruct (Exa.tweets profileInfo); [congruence | reflexivity]. }
  subst context profileInfo.
  unfold PersonaRoute.handle. simpl. rewrite Hx. simpl. rewrite Hs. simpl.
  unfold Exa.searchXProfile, Exa.validateApiKey. rewrite Hkey. simpl.
  rewrite Hpost. simpl. rewrite Hlen. simpl.
  rewrite Hgen. simpl. rewrite app_nil_r. reflexivity.
Qed.

Lemma persona_handler_200_over_instances_witness :
  PersonaRoute.handle (Instance keyedExa) (Instance keyedOpenAI) helpfulWorld
    (Ok (VObject handleBody))
  = (ExaSearch (Exa.searchRequest keyedExa (replaceLeadingAt (js "jdoe")))
       :: [ OpenAIChat
              (OpenAI.chatRequest
                 {| recentTweets := Exa.tweets (Exa.extractProfileInfo followersThenBio);
                    contextBio :=
                      PersonaRoute.bioOrEmpty
                        (Exa.bio (Exa.extractProfileInfo followersThenBio));
                    profileDescription := None |}) ],
     Ok {| status := 200;
           body := {| success := true; error := None;
                      responseLocations := None;
                      responsePersona :=
                        Some (PersonaRoute.withProfileImage somePersona
                                (Exa.profileImageUrl
                                   (Exa.extractProfileInfo followersThenBio))) |} |}).
Proof.
  apply (persona_handler_200_over_instances helpfulWorld keyedExa keyedOpenAI
           handleBody (js "jdoe") followersThenBio).
  - reflexivity.
  - reflexivity.
  - reflexivity.
  - reflexivity.
  - vm_compute. discriminate.
  - vm_compute. reflexivity.
Defined.

End RouteMore.

(** ** The components: centre, selection, clicks and the two tables *)

Module ComponentMore.
Import JSFacts Shapes Views MoreViews Samples MoreSamples.

Section AnyBounds.
Context {api : LocationMap.LatLngBoundsAPI}.

Lemma last_cons (l : list LatLng) : forall a d, last (a :: l) d = last l a.
Proof.
  induction l as [|x l IH]; intros a d; [reflexivity|].
  change (last (a :: x :: l) d) with (last (x :: l) d).
  rewrite (IH x d), (IH x a). reflexivity.
Qed.

Lemma mapCenter_fold_last renders : forall c,
  fold_left (fun mapCenter props => LocationMap.centerEffect props mapCenter)
            renders (Some c)
  = Some (last (explicitCenters renders) c).
Proof.
  induction renders as [|props renders IH]; intros c; [reflexivity|].
  simpl fold_left. unfold LocationMap.centerEffect at 2. simpl.
  rewrite andb_false_r.
  change (explicitCenters (props :: renders))
    with (match LocationMap.centerCoordinates props with
          | Some c' => [ c' ]
          | None => []
          end ++ explicitCenters renders).
  destruct (LocationMap.centerCoordinates props) as [c'|]; rewrite IH.
  - rewrite <- (last_cons (explicitCenters renders) c' c). reflexivity.
  - reflexivity.
Qed.

(** X24.  After any history of renders the [mapCenter] state is the last
    explicit centre that was supplied, or Toronto when none ever was; it
    is never null, so a loaded component never shows the loading
    placeholder, and the locations never move the centre. *)
Theorem mapCenter_is_last_explicit_centre
    (w : World) (renders : list LocationMap.Props) (props : LocationMap.Props) :
  LocationMap.mapCenterAfter renders
  = Some (last (explicitCenters renders) LocationMap.toronto)
  /\ LocationMap.LocationMap w true (LocationMap.mapCenterAfter renders) props
     = LocationMap.GoogleMapView
         (last (explicitCenters renders) LocationMap.toronto) 12
         (map (LocationMap.marker w props) (LocationMap.locations props)).
Proof.
  assert (H : LocationMap.mapCenterAfter renders
              = Some (last (explicitCenters renders) LocationMap.toronto)).
  { apply mapCenter_fold_last. }
  split; [exact H|]. rewrite H. reflexivity.
Qed.

End AnyBounds.

Lemma selected_at_most_once (selected : option jsstring) (locs : list Location) :
  NoDup (map locationId locs) ->
  List.length (filter (LocationList.isSelected selected) locs) <= 1.
Proof.
  destruct selected as [s|].
  - induction locs as [|l locs IH]; simpl; [lia|].
    intros H. inversion H as [|x xs Hnotin Hnodup]. subst.
    specialize (IH Hnodup).
    destruct (streq s (locationId l)) eqn:E; [|exact IH].
    apply streq_eq in E. simpl.
    assert (Hnone : filter (LocationList.isSelected (Some s)) locs = []).
    { clear IH Hnodup H. induction locs as [|l' locs IH']; [reflexivity|].
      simpl. destruct (streq s (locationId l')) eqn:E'.
      - exfalso. apply Hnotin. left. apply streq_eq in E'. congruence.
      - apply IH'. intros Hin. apply Hnotin. right. exact Hin. }
    rewrite Hnone. simpl. lia.
  - intros _. induction locs as [|l locs IH]; simpl; [lia | exact IH].
Qed.

Lemma filter_map_comm {A B} (f : A -> B) (p : B -> bool) (l : list A) :
  List.length (filter p (map f l)) = List.length (filter (fun x => p (f x)) l).
Proof.
  induction l as [|x l IH]; [reflexivity|]. simpl.
  destruct (p (f x)); simpl; rewrite IH; reflexivity.
Qed.

(** X25.  For the same locations and the same selected id, whatever the
    list, the list and the map select the same locations: the i-th card
    is highlighted exactly when the i-th marker bounces, the two carry
    the same key, and a marker has the info window exactly when it
    bounces.  When, moreover, the location ids are distinct, at most one
    card and at most one marker are selected. *)
Theorem list_and_map_select_alike
    (w : World) (locs : list Location) (selected image : option jsstring)
    (center : option LatLng) :
  let listProps := {| LocationList.locations := locs;
                      LocationList.selectedLocationId := selected;
                      LocationList.profileImage := image |} in
  let mapProps := {| LocationMap.locations := locs;
                     LocationMap.selectedLocationId := selected;
                     LocationMap.profileImage := image;
                     LocationMap.centerCoordinates := center |} in
  let cards := map (LocationList.card w listProps) locs in
  let markers := map (LocationMap.marker w mapProps) locs in
  map LocationList.highlighted cards = map LocationMap.bounce markers
  /\ map LocationList.cardKey cards = map LocationMap.markerKey markers
  /\ Forall (fun m => LocationMap.bounce m = true <-> LocationMap.infoWindow m <> None)
            markers
  /\ (NoDup (map locationId locs) ->
      List.length (filter LocationList.highlighted cards) <= 1
      /\ List.length (filter LocationMap.bounce markers) <= 1).
Proof.
  intros listProps mapProps cards markers.
  unfold cards, markers. repeat rewrite map_map. simpl.
  split; [reflexivity|]. split; [reflexivity|]. split.
  - apply Forall_forall. intros m Hm. apply in_map_iff in Hm as (l & <- & _).
    simpl. destruct (LocationList.isSelected selected l); split;
      congruence || discriminate.
  - intros Hnodup. repeat rewrite filter_map_comm. simpl.
    split; apply selected_at_most_once, Hnodup.
Qed.

Lemma list_and_map_select_alike_witness :
  NoDup (map locationId [ louvre; eiffel ])
  /\ map LocationList.highlighted
        (map (LocationList.card helpfulWorld twoPlacesList) [ louvre; eiffel ])
     = map LocationMap.bounce
         (map (LocationMap.marker helpfulWorld twoPlaces) [ louvre; eiffel ])
  /\ List.length
       (filter LocationList.highlighted
          (map (LocationList.card helpfulWorld twoPlacesList) [ louvre; eiffel ]))
     <= 1
  /\ List.length
       (filter LocationMap.bounce
          (map (LocationMap.marker helpfulWorld twoPlaces) [ louvre; eiffel ]))
     <= 1.
Proof.
  assert (Hnodup : NoDup (map locationId [ louvre; eiffel ])).
  { repeat constructor; simpl; intuition discriminate. }
  destruct (list_and_map_select_alike helpfulWorld [ louvre; eiffel ]
              (Some (js "2")) None None) as (Hsame & _ & _ & Hone).
  split; [exact Hnodup|]. split; [exact Hsame|]. exact (Hone Hnodup).
Defined.

(** A list with a repeated id: both views select both entries alike. *)
Example repeated_ids_select_twice :
  map LocationList.highlighted
      (map (LocationList.card helpfulWorld
              {| LocationList.locations := [ eiffel; eiffel ];
                 LocationList.selectedLocationId := Some (js "2");
                 LocationList.profileImage := None |}) [ eiffel; eiffel ])
  = [ true; true ]
  /\ map LocationMap.bounce
        (map (LocationMap.marker helpfulWorld
                {| LocationMap.locations := [ eiffel; eiffel ];
                   LocationMap.selectedLocationId := Some (js "2");
                   LocationMap.profileImage := None;
                   LocationMap.centerCoordinates := None |}) [ eiffel; eiffel ])
     = [ true; true ].
Proof. split; vm_compute; reflexivity. Qed.

(** X26.  The [map] state is never set to a map ([onLoad] does not store
    the one it receives), so a click on a marker reports the selection
    and never pans or zooms the map. *)
Theorem marker_click_only_selects
    (props : LocationMap.Props) (events : list LocationMap.Lifecycle)
    (clicked : jsstring) :
  LocationMap.mapStateAfter events = None
  /\ LocationMap.handleMarkerClick props (LocationMap.mapStateAfter events) clicked
     = [ LocationMap.OnLocationSelect clicked ].
Proof.
  assert (H : LocationMap.mapStateAfter events = None).
  { unfold LocationMap.mapStateAfter.
    induction events as [|ev events IH]; [reflexivity|].
    simpl. destruct ev; exact IH. }
  split; [exact H|]. rewrite H. unfold LocationMap.handleMarkerClick.
  destruct (find _ _); reflexivity.
Qed.

Ltac table_cases :=
  repeat match goal with
         | |- context [if streq ?a ?b then _ else _] => destruct (streq a b)
         end.

(** X27.  The list and the map fall back together: a category gets the
    default pin in the list exactly when it gets the default grey on
    the map. *)
Theorem default_glyph_iff_default_colour (w : World) (category : jsstring) :
  LocationList.getCategoryEmoji w category = pin
  <-> LocationMap.categoryColor w category = grey.
Proof.
  unfold LocationList.getCategoryEmoji, LocationMap.categoryColor.
  change (getObjectProperty LocationList.categories (js "default")) with pin.
  change (getObjectProperty LocationMap.colors (js "default")) with grey.
  unfold getObjectProperty, orElse, LocationList.categories, LocationMap.colors.
  generalize (toLowerCase w category). intros k.
  cbn [ownProperty].
  table_cases; try (split; intros H; vm_compute in H |- *; congruence).
  change (ownProperty [] k) with (@None Value). cbv iota.
  destruct (objectPrototypeProperty k) as [v|] eqn:Hv.
  - assert (Hn : exists n, v = VNative n).
    { unfold objectPrototypeProperty in Hv.
      destruct (streq k (js "constructor")); [inversion Hv; eauto|].
      destruct (streq k (js "__proto__")); [inversion Hv; eauto|].
      destruct (find _ _); inversion Hv; eauto. }
    destruct Hn as [n ->]. simpl. split; discriminate.
  - split; intros _; vm_compute; reflexivity.
Qed.

End ComponentMore.

(** ** components/LocationMap.tsx: where the map is after load and after
    a change of the locations *)

Module MapLifecycleSpec.
Import LocationMap MapLifecycle Samples MoreSamples.

Section AnyBounds.
Context {api : LatLngBoundsAPI}.

(** [setMapCenterCall] is the call behind [centerEffect]. *)
Lemma centerEffect_by_call props mapCenter :
  centerEffect props mapCenter
  = match setMapCenterCall props mapCenter with
    | Some c => Some c
    | None => mapCenter
    end.
Proof.
  unfold centerEffect, setMapCenterCall.
  destruct ((0 <? List.length (locations props))
            && isNone (centerCoordinates props) && isNone mapCenter);
    [reflexivity|].
  destruct (centerCoordinates props); reflexivity.
Qed.

Lemma no_explicit_centre_no_update renders : forall c,
  forallb (fun props => isNone (centerCoordinates props)) renders = true ->
  updateCalls renders (Some c) = [].
Proof.
  induction renders as [|props renders IH]; intros c H; [reflexivity|].
  simpl in H. apply andb_prop in H as [Hp Hr].
  simpl. unfold setMapCenterCall. simpl. rewrite andb_false_r.
  destruct (centerCoordinates props); [discriminate|]. apply IH, Hr.
Qed.

(** Without explicit centres the only calls on the map are those of its
    creation: the locations of later renders reach no call. *)
Lemma later_locations_make_no_call first later :
  forallb (fun props => isNone (centerCoordinates props)) (first :: later) = true ->
  callsOnMap first later = loadCalls first initialMapCenter.
Proof.
  intros H. unfold callsOnMap, initialMapCenter.
  rewrite (no_explicit_centre_no_update (first :: later) toronto H).
  apply app_nil_r.
Qed.

(** At its creation the map is placed by [fitBounds] on the bounds of
    all locations when there are some, and by [setCenter] on Toronto
    when there are none. *)
Lemma load_places_the_map first :
  centredBy (loadCalls first initialMapCenter)
  = Some (match locations first with
          | [] => SetCenter toronto
          | _ :: _ => FitBounds (boundsOf (locations first))
          end).
Proof.
  unfold loadCalls, onLoad, centredBy.
  destruct (locations first); reflexivity.
Qed.

(** Where the map is: whatever the later locations are, it is where its
    creation left it. *)
Lemma map_stays_where_load_left_it first later :
  forallb (fun props => isNone (centerCoordinates props)) (first :: later) = true ->
  centredBy (callsOnMap first later)
  = Some (match locations first with
          | [] => SetCenter toronto
          | _ :: _ => FitBounds (boundsOf (locations first))
          end).
Proof.
  intros H. rewrite (later_locations_make_no_call first later H).
  apply load_places_the_map.
Qed.

End AnyBounds.

(** C2 at a component that is created with no locations and no explicit
    centre and is then rendered with one location in Paris.  [onLoad]
    has run for the empty list and set Toronto; the effect of the later
    render makes no call, since its bounds branch needs a null
    [mapCenter]: the map stays on Toronto although the list is not
    empty and the centre of its bounds is the Paris coordinate.  A
    component created with the Paris list is fitted to its bounds by
    [onLoad]; when it is then rendered with a list in Tokyo it stays
    fitted to the bounds of the Paris list. *)
Theorem map_stays_on_toronto_when_locations_arrive_after_load :
  callsOnMap (api := boxBounds) noPlaces [ parisProps ]
  = [ SetCenter toronto; SetZoom 12;
      SetCenter toronto; SetZoom 12;
      SetTilt 45; SetHeading 45; SetMapTypeId "SATELLITE" ]
  /\ centredBy (callsOnMap (api := boxBounds) noPlaces [ parisProps ])
     = Some (SetCenter toronto)
  /\ mapCenterAfter (api := boxBounds) [ noPlaces; parisProps ] = Some toronto
  /\ locations parisProps <> []
  /\ centerCoordinates parisProps = None
  /\ boundsCenter (api := boxBounds) (locations parisProps) = paris
  /\ paris <> toronto
  /\ centredBy (callsOnMap (api := boxBounds) parisProps [])
     = Some (FitBounds (boundsOf (api := boxBounds) (locations parisProps)))
  /\ centredBy (callsOnMap (api := boxBounds) parisProps [ tokyoProps ])
     = Some (FitBounds (boundsOf (api := boxBounds) (locations parisProps)))
  /\ boundsCenter (api := boxBounds) (locations tokyoProps) = tokyo
  /\ tokyo <> paris.
Proof.
  split; [vm_compute; reflexivity|].
  split; [apply (map_stays_where_load_left_it (api := boxBounds)); reflexivity|].
  split; [apply (MapSpec.mapCenter_stays_toronto (api := boxBounds)); reflexivity|].
  split; [discriminate|].
  split; [reflexivity|].
  split; [vm_compute; reflexivity|].
  split; [exact MapSpec.paris_is_not_toronto|].
  split; [apply (map_stays_where_load_left_it (api := boxBounds)); reflexivity|].
  split; [apply (map_stays_where_load_left_it (api := boxBounds)); reflexivity|].
  split; [vm_compute; reflexivity|].
  intros H. apply (f_equal lat) in H.
  apply (f_equal (fun x => PrimFloat.eqb x 35.6762)) in H.
  vm_compute in H. discriminate.
Qed.

End MapLifecycleSpec.
